(** * Lab_HPC: per-seed Monte-Carlo replications, run sequentially or in a pool

    A shallow embedding of
      - SimModel/SimClasses.py       (OneSim, ParallelMultiSim, simulate_this_model)
      - SimModel/RunSimSequential.py (the sequential driver loop)
      - SimModel/RunSimParallel.py   (the parallel driver)
      - PyUsingSimPy/SimClasses2.py  (OneSim, MultiSim)
    followed by the properties of the replication engine.

    Python objects are records threaded through the calls that mutate them;
    a method call returns the value of its [return] statement ([PyNone] when
    it has none) next to the updated object.  Python [float] is the IEEE
    binary64 type [PrimFloat.float], so equality of sums is equality of bits.
    The file system is a finite map from (directory, file name) to rows. *)

From Stdlib Require Import ZArith List Floats.PrimFloat Uint63.
From stdpp Require Import gmap strings list pretty.

(** ** Python values *)

Module Py.

(** A number as Python has it: [self.sum] is the int literal [0] until the
    first float has been added to it. *)
Inductive pynum :=
| PyInt (z : Z)
| PyFloat (f : float).

(** The value a call hands back to its caller. *)
Inductive pyobj :=
| PyNone
| PyNum (x : pynum).

(** One cell of a csv row: a number, or (SimClasses2.OneSim.export_results)
    a whole list of numbers. *)
Inductive cell :=
| Num (x : pynum)
| NumList (l : list pynum).

(** int -> float conversion, exact below 2^53 and rounded to nearest below
    2^63, as Python's; the only int a sum ever holds is the literal 0. *)
Definition float_of_Z (z : Z) : float :=
  match z with
  | Z0 => PrimFloat.zero
  | Zpos _ => PrimFloat.of_uint63 (Uint63.of_Z z)
  | Zneg _ => PrimFloat.opp (PrimFloat.of_uint63 (Uint63.of_Z (- z)))
  end.

Definition to_float (x : pynum) : float :=
  match x with
  | PyInt z => float_of_Z z
  | PyFloat f => f
  end.

(** [acc += x] for a float [x]: the result is always a float. *)
Definition iadd (acc : pynum) (x : float) : pynum :=
  PyFloat (PrimFloat.add (to_float acc) x).

(** The errors the specification names, and a call that may raise one. *)
Inductive exn :=
| ConfigurationError
| EmptyInputError.

Inductive result (A : Type) :=
| Returns (x : A)
| Raises (e : exn).
Arguments Returns {A} x.
Arguments Raises {A} e.

(** [range(n)]: empty when [n <= 0]. *)
Definition range (n : Z) : list Z := seqZ 0 n.

(** [str(i)] for an int: decimal digits, with a leading minus sign. *)
Definition str (i : Z) : string := pretty i.

End Py.

Import Py.

(** The file system: (directory, file name) |-> rows written. *)
Abbreviation FS := (gmap (string * string) (list (list cell))).

(** ** SimPy.RandomVariantGenerators: the seeded stochastic source

    The module is not part of the sources; its three entry points used by
    the simulator are the interface below.  The constructor is taken to
    accept the seed it is given, and every call on a generator advances that
    generator's own state and nothing else. *)

Module RVGs.

(** [RVGs.Beta(a=.., b=..)] *)
Record Beta := mkBeta { a : Z; b : Z }.

Class RandomSource (rng_state : Type) := {
  (** [RVGs.RNG(seed=seed)] *)
  RNG : Z -> rng_state;
  (** [rng.random_sample()] *)
  random_sample : rng_state -> float * rng_state;
  (** [beta.sample(rng=rng)] *)
  sample : Beta -> rng_state -> float * rng_state
}.

End RVGs.

(** ** SimPy.InOutFunctions *)

Module IO.

(** Modelled from the spec: [write_csv] is not part of the sources.  The
    spec's result sink persists the given rows to the named file of the named
    directory, creating the directory when absent; a file written again is
    replaced. *)
Definition write_csv (rows : list (list cell)) (file_name directory : string)
    (fs : FS) : FS :=
  <[(directory, file_name) := rows]> fs.

End IO.

(** ** SimPy.StatisticalClasses *)

Module Stat.

Record summary := mkSummary { mean : float; count : nat }.

Definition total (values : list pynum) : float :=
  fold_left (fun acc x => PrimFloat.add acc (to_float x)) values PrimFloat.zero.

(** Modelled from the spec: [SummaryStat] and its [get_mean] are not part of
    the sources.  The spec's [summarize(outcomes) -> {mean, count}] is defined
    for one or more outcomes; zero outcomes are the input-validation error
    [EmptyInputError]. *)
Definition summarize (values : list pynum) : result summary :=
  match values with
  | [] => Raises EmptyInputError
  | _ :: _ =>
      Returns {| mean := PrimFloat.div (total values)
                           (float_of_Z (Z.of_nat (length values)));
                 count := length values |}
  end.

End Stat.

(** ** multiprocessing.Pool *)

Module mp.

Section starmap.
Context {A B : Type}.
Variable func : A -> FS -> B * FS.

(** Task [i] runs to completion: the worker process receives a pickled copy
    of the [i]-th argument tuple, calls [func] on it against the file system
    all workers share, and its return value is filed under index [i].  The
    objects of the submitting process are not touched.  An index outside the
    argument list names no task.  Workers run side by side, yet a task of
    this program touches what they share once only, when it writes its file:
    an interleaving of the workers is an order of the tasks. *)
Definition run_task (args : list A) (st : list (option B) * FS) (i : nat)
    : list (option B) * FS :=
  match args !! i with
  | Some x => let '(r, fs) := func x st.2 in (<[i := Some r]> st.1, fs)
  | None => st
  end.

(** [pl.starmap(func, args)].  [sched] is the order in which the pool's
    workers happen to complete the tasks.  The call returns the results in
    the order of [args] once every task has completed ([None]: some task was
    never run). *)
Definition starmap (args : list A) (sched : list nat) (fs : FS)
    : option (list B) * FS :=
  let st := fold_left (run_task args) sched
              (replicate (length args) None, fs) in
  (mapM id st.1, st.2).

End starmap.

End mp.

(** ** SimModel/SimClasses.py *)

Module SimClasses.

Module OneSim.

Record t (rng_state : Type) := mk {
  rng : rng_state;
  beta : RVGs.Beta;
  sum : pynum;
  seed : Z
}.
Arguments mk {rng_state}.
Arguments rng {rng_state}.
Arguments beta {rng_state}.
Arguments sum {rng_state}.
Arguments seed {rng_state}.

Section methods.
Context {rng_state : Type} {source : RVGs.RandomSource rng_state}.

(** [OneSim.__init__(self, seed)] *)
Definition init (seed : Z) : t rng_state :=
  {| rng := RVGs.RNG seed;
     beta := RVGs.mkBeta 1 2;
     sum := PyInt 0;
     seed := seed |}.

(** [self.sum += self.rng.random_sample() + self.beta.sample(rng=self.rng)]:
    [self.sum] is read, the uniform variate is drawn, then the Beta variate,
    the two are added, and their sum is added to the value read. *)
Definition simulate_step (self : t rng_state) (i : Z) : t rng_state :=
  let '(u, r1) := RVGs.random_sample (rng self) in
  let '(v, r2) := RVGs.sample (beta self) r1 in
  {| rng := r2;
     beta := beta self;
     sum := iadd (sum self) (PrimFloat.add u v);
     seed := seed self |}.

(** [OneSim.simulate(self, n_steps)]: no [return] statement. *)
Definition simulate (n_steps : Z) (self : t rng_state) : pyobj * t rng_state :=
  let self := {| rng := rng self; beta := beta self;
                 sum := PyInt 0; seed := seed self |} in
  (PyNone, fold_left simulate_step (range n_steps) self).

(** [OneSim.export_results(self, directory)] *)
Definition export_results (directory : string) (self : t rng_state) (fs : FS)
    : pyobj * FS :=
  let rows := [[Num (PyInt (seed self)); Num (sum self)]] in
  let name := ("Seed " +:+ str (seed self)) +:+ ".csv" in
  (PyNone, IO.write_csv rows name directory fs).

End methods.
End OneSim.

Section functions.
Context {rng_state : Type} {source : RVGs.RandomSource rng_state}.

(** [simulate_this_model(model, n_steps)] *)
Definition simulate_this_model (model : OneSim.t rng_state) (n_steps : Z)
    (fs : FS) : OneSim.t rng_state * FS :=
  let '(_, model) := OneSim.simulate n_steps model in
  let '(_, fs) := OneSim.export_results "ResultsParallel" model fs in
  (model, fs).

End functions.

Module ParallelMultiSim.

Record t (rng_state : Type) := mk { models : list (OneSim.t rng_state) }.
Arguments mk {rng_state}.
Arguments models {rng_state}.

Section methods.
Context {rng_state : Type} {source : RVGs.RandomSource rng_state}.

(** [ParallelMultiSim.__init__(self, num_simulations)] *)
Definition init (num_simulations : Z) : t rng_state :=
  {| models := fold_left (fun models seed => models ++ [OneSim.init seed])
                 (range num_simulations) [] |}.

(** [args = [(model, n_steps) for model in self.models]] *)
Definition args (n_steps : Z) (self : t rng_state)
    : list (OneSim.t rng_state * Z) :=
  (fun model => (model, n_steps)) <$> models self.

(** The call [pl.starmap(simulate_this_model, args)] inside [simulate]. *)
Definition starmap_call (n_steps : Z) (sched : list nat) (self : t rng_state)
    (fs : FS) : option (list (OneSim.t rng_state)) * FS :=
  mp.starmap (fun '(model, n) => simulate_this_model model n)
    (args n_steps self) sched fs.

(** [ParallelMultiSim.simulate(self, n_steps)]: [mp.cpu_count()] sizes the
    pool, which shows in the schedule only; the list [starmap] returns is
    dropped, and [self.models] still holds the objects the copies were taken
    from. *)
Definition simulate (n_steps : Z) (sched : list nat) (self : t rng_state)
    (fs : FS) : pyobj * t rng_state * FS :=
  let '(_, fs) := starmap_call n_steps sched self fs in
  (PyNone, self, fs).

End methods.
End ParallelMultiSim.

End SimClasses.

(** ** SimModel/RunSimSequential.py and SimModel/RunSimParallel.py

    The drivers also read the clock and print the elapsed time. *)

Module RunSimSequential.

Definition N_STEPS : Z := 10000.
Definition N_RUNS : Z := 100.

Section driver.
Context {rng_state : Type} {source : RVGs.RandomSource rng_state}.

(** The body of [for seed in range(N_RUNS)]. *)
Definition body (n_steps : Z) (fs : FS) (seed : Z) : FS :=
  let model : SimClasses.OneSim.t rng_state := SimClasses.OneSim.init seed in
  let '(_, model) := SimClasses.OneSim.simulate n_steps model in
  let '(_, fs) :=
    SimClasses.OneSim.export_results "ResultsSequential" model fs in
  fs.

Definition loop (n_runs n_steps : Z) (fs : FS) : FS :=
  fold_left (body n_steps) (range n_runs) fs.

Definition main (fs : FS) : FS := loop N_RUNS N_STEPS fs.

End driver.
End RunSimSequential.

Module RunSimParallel.

Definition N_STEPS : Z := 10000.
Definition N_RUNS : Z := 100.

Section driver.
Context {rng_state : Type} {source : RVGs.RandomSource rng_state}.

Definition run (n_runs n_steps : Z) (sched : list nat) (fs : FS)
    : SimClasses.ParallelMultiSim.t rng_state * FS :=
  let parallelModel := SimClasses.ParallelMultiSim.init n_runs in
  let '(_, parallelModel, fs) :=
    SimClasses.ParallelMultiSim.simulate n_steps sched parallelModel fs in
  (parallelModel, fs).

Definition main (sched : list nat) (fs : FS)
    : SimClasses.ParallelMultiSim.t rng_state * FS :=
  run N_RUNS N_STEPS sched fs.

End driver.
End RunSimParallel.

(** ** PyUsingSimPy/SimClasses2.py

    Lines 16 and 29 of the file are indented with a tab; they are read as
    part of the method body they stand in, which is what tab stops at 8
    make of them. *)

Module SimClasses2.

Module OneSim.

Record t (rng_state : Type) := mk {
  rng : rng_state;
  beta : RVGs.Beta;
  sum : pynum;
  obs : list pynum;
  num : Z
}.
Arguments mk {rng_state}.
Arguments rng {rng_state}.
Arguments beta {rng_state}.
Arguments sum {rng_state}.
Arguments obs {rng_state}.
Arguments num {rng_state}.

Section methods.
Context {rng_state : Type} {source : RVGs.RandomSource rng_state}.

(** [OneSim.__init__(self, seed)] *)
Definition init (seed : Z) : t rng_state :=
  {| rng := RVGs.RNG seed;
     beta := RVGs.mkBeta 1 2;
     sum := PyInt 0;
     obs := [];
     num := seed |}.

Definition simulate_step (self : t rng_state) (i : Z) : t rng_state :=
  let '(u, r1) := RVGs.random_sample (rng self) in
  let '(v, r2) := RVGs.sample (beta self) r1 in
  {| rng := r2;
     beta := beta self;
     sum := iadd (sum self) (PrimFloat.add u v);
     obs := obs self;
     num := num self |}.

(** [OneSim.simulate(self, n_steps)]: the loop starts from the sum the
    object already holds, then the sum is appended to [self.obs]. *)
Definition simulate (n_steps : Z) (self : t rng_state) : pyobj * t rng_state :=
  let self := fold_left simulate_step (range n_steps) self in
  (PyNone,
   {| rng := rng self; beta := beta self; sum := sum self;
      obs := obs self ++ [sum self]; num := num self |}).

(** [OneSim.export_results(self)]: every row holds the list [self.obs]. *)
Definition export_results (self : t rng_state) (fs : FS) : pyobj * FS :=
  let rows :=
    fold_left (fun rows o => rows ++ [[NumList (obs self)]]) (obs self) [] in
  let name := str (num self) +:+ ".csv" in
  (PyNone, IO.write_csv rows name "Results" fs).

End methods.
End OneSim.

Module MultiSim.

Record t := mk { obs : list pynum }.

(** [MultiSim.__init__(self)] *)
Definition init : t := {| obs := [] |}.

Section methods.
Context {rng_state : Type} {source : RVGs.RandomSource rng_state}.

(** The body of [for i in range(n_iterations)]. *)
Definition body (n_steps : Z) (self : t) (i : Z) : t :=
  let sim : OneSim.t rng_state := OneSim.init i in
  let '(_, sim) := OneSim.simulate n_steps sim in
  {| obs := obs self ++ [OneSim.sum sim] |}.

(** [MultiSim.simulate(self, n_steps, n_iterations)]: the value handed
    back stands for the line printed, the mean of [self.obs]. *)
Definition simulate (n_steps n_iterations : Z) (self : t)
    : result float * t :=
  let self := fold_left (body n_steps) (range n_iterations) self in
  match Stat.summarize (obs self) with
  | Returns stat => (Returns (Stat.mean stat), self)
  | Raises e => (Raises e, self)
  end.

(** [MultiSim.export_results(self)] *)
Definition export_results (self : t) (fs : FS) : pyobj * FS :=
  let rows := fold_left (fun rows o => rows ++ [[Num o]]) (obs self) [] in
  (PyNone, IO.write_csv rows "results.csv" "Results" fs).

End methods.
End MultiSim.

End SimClasses2.

(** ** The replication as the specification words it

    [run(step_count)] executes [step_count] iterations; each iteration draws
    one uniform variate and one Beta(1,2) variate from the replication's own
    source and adds both to [accumulated_value], which starts at 0. *)

Module Spec.

Section replication.
Context {rng_state : Type} {source : RVGs.RandomSource rng_state}.

(** One iteration: the uniform variate, the Beta(1,2) variate, and the
    source after the two draws. *)
Definition draw_pair (r : rng_state) : float * float * rng_state :=
  let '(u, r1) := RVGs.random_sample r in
  let '(v, r2) := RVGs.sample (RVGs.mkBeta 1 2) r1 in
  (u, v, r2).

Fixpoint accumulate (step_count : nat) (acc : pynum) (r : rng_state)
    : pynum * rng_state :=
  match step_count with
  | O => (acc, r)
  | S k =>
      let '(u, v, r') := draw_pair r in
      accumulate k (iadd acc (PrimFloat.add u v)) r'
  end.

(** [Replication(seed).run(step_count)] *)
Definition run (seed : Z) (step_count : nat) : pynum :=
  (accumulate step_count (PyInt 0) (RVGs.RNG seed)).1.

(** The configuration check of the spec's error taxonomy: a non-positive
    replication count or a negative step count is a [ConfigurationError]. *)
Definition check_configuration (N step_count : Z) : result unit :=
  if bool_decide (N <= 0 \/ step_count < 0)%Z
  then Raises ConfigurationError
  else Returns tt.

End replication.
End Spec.

(** ** A reference generator

    A linear congruential generator on 31 bits, used to evaluate the model
    on concrete inputs.  Its Beta variate is drawn by inversion of the
    Beta(1,2) distribution function, the one distribution the simulator
    builds. *)

Module Lcg.

Definition modulus : Z := 2147483648.

Definition next (s : Z) : Z := ((1103515245 * s + 12345) mod modulus)%Z.

Definition unit_float (s : Z) : float :=
  PrimFloat.div (float_of_Z s) (float_of_Z modulus).

#[global] Instance source : RVGs.RandomSource Z := {|
  RVGs.RNG seed := (seed mod modulus)%Z;
  RVGs.random_sample s := (unit_float (next s), next s);
  RVGs.sample _ s :=
    (PrimFloat.sub PrimFloat.one
       (PrimFloat.sqrt (PrimFloat.sub PrimFloat.one (unit_float (next s)))),
     next s)
|}.

End Lcg.

(** ** What a run leaves behind *)

Import SimClasses.

(** The file name [OneSim.export_results] builds for a seed. *)
Definition file_of_seed (seed : Z) : string :=
  ("Seed " +:+ str seed) +:+ ".csv".

(** The sum a freshly built [OneSim(seed)] holds after [simulate(n_steps)]. *)
Definition outcome {rng_state : Type} {source : RVGs.RandomSource rng_state}
    (seed n_steps : Z) : pynum :=
  OneSim.sum (OneSim.simulate n_steps (OneSim.init (rng_state:=rng_state) seed)).2.

(** The rows exported for a seed: the single row [[seed, sum]]. *)
Definition result_rows {rng_state : Type} {source : RVGs.RandomSource rng_state}
    (n_steps seed : Z) : list (list cell) :=
  [[Num (PyInt seed); Num (outcome (rng_state:=rng_state) seed n_steps)]].

(** The files of a list of items written one after the other. *)
Definition write_all {A : Type} (path : A -> string * string)
    (rows : A -> list (list cell)) (l : list A) (fs : FS) : FS :=
  fold_left (fun fs x => <[path x := rows x]> fs) l fs.

(** Two numbers of the same type that compare equal. *)
Definition same_number (x y : pynum) : bool :=
  match x, y with
  | PyInt a, PyInt b => (a =? b)%Z
  | PyFloat a, PyFloat b => PrimFloat.eqb a b
  | _, _ => false
  end.

(** A generator that counts the draws made on it: the wrapped generator
    does the drawing, the two counters record how many uniform and how many
    Beta variates were asked for. *)
Module Counting.

Record counted (rng_state : Type) := mk {
  inner : rng_state;
  uniform_draws : nat;
  beta_draws : nat
}.
Arguments mk {rng_state}.
Arguments inner {rng_state}.
Arguments uniform_draws {rng_state}.
Arguments beta_draws {rng_state}.

#[global] Instance source {rng_state : Type}
    {base : RVGs.RandomSource rng_state}
    : RVGs.RandomSource (counted rng_state) := {|
  RVGs.RNG seed := mk (RVGs.RNG seed) 0 0;
  RVGs.random_sample c :=
    let '(u, r) := RVGs.random_sample (inner c) in
    (u, mk r (S (uniform_draws c)) (beta_draws c));
  RVGs.sample d c :=
    let '(v, r) := RVGs.sample d (inner c) in
    (v, mk r (uniform_draws c) (S (beta_draws c)))
|}.

End Counting.


(** ** Objects used over several calls *)

(** [for n in ns: model.simulate(n)] on one SimModel [OneSim]. *)
Definition after_runs {rng_state : Type} {source : RVGs.RandomSource rng_state}
    (ns : list Z) (model : OneSim.t rng_state) : OneSim.t rng_state :=
  fold_left (fun model n => (OneSim.simulate n model).2) ns model.

(** The path [OneSim.export_results] of SimModel writes for a seed. *)
Definition seed_path (directory : string) (seed : Z) : string * string :=
  (directory, file_of_seed seed).

(** ** PyUsingSimPy/SimPy/SimPy/RegressionClasses.py

    numpy and statsmodels are not part of the sources: an array is a value
    of a type [ndarray], and of the model [sm.OLS(..).fit()] returns the
    methods embedded here read the [params] only.  The construction of a
    regression, which runs the fit, is left out. *)

Module RegressionClasses.

Inductive error :=
| ValueError (msg : string)
| IndexError.

(** A call that returns or raises. *)
Inductive call (A : Type) :=
| Ok (x : A)
| Raised (e : error).
Arguments Ok {A} x.
Arguments Raised {A} e.

Module PolyRegFunction.

Record t := mk { degree : Z }.

(** [PolyRegFunction.__init__(self, degree=1)] *)
Definition init (degree : Z) : call t :=
  if bool_decide (degree < 1)%Z
  then Raised (ValueError
    "Degree of the polynomial regression function should be greater than 0.")
  else Ok {| degree := degree |}.

End PolyRegFunction.

Module SingleVarRegression.

Record t (ndarray : Type) := mk {
  f : PolyRegFunction.t;
  x : ndarray;
  X : ndarray;
  y : ndarray;
  fitted_params : list float
}.
Arguments mk {ndarray}.
Arguments f {ndarray}.
Arguments x {ndarray}.
Arguments X {ndarray}.
Arguments y {ndarray}.
Arguments fitted_params {ndarray}.

Section methods.
Context {ndarray : Type}.

(** [SingleVarRegression.get_coeffs(self)] *)
Definition get_coeffs (self : t ndarray) : list float := fitted_params self.

(** The built-in [pow(x, i)] of a float and an int is the C library's. *)
Variable pow : float -> Z -> float.




End methods.
End SingleVarRegression.

End RegressionClasses.

(** * Properties *)

(** ** The model on concrete inputs, under the reference generator *)

Local Set Warnings "-inexact-float".

Example simulate_three_steps :
  OneSim.simulate 3 (OneSim.init (rng_state:=Z) 0)
  = (PyNone, OneSim.mk 1109335178%Z (RVGs.mkBeta 1 2)
               (PyFloat 1.5589423529713948%float) 0).
Proof. by vm_compute. Qed.

Example simulate_negative_steps :
  OneSim.simulate (-4) (OneSim.init (rng_state:=Z) 2)
  = (PyNone, OneSim.init 2).
Proof. by vm_compute. Qed.

Example sequential_driver_files :
  let fs := RunSimSequential.loop (rng_state:=Z) 2 2 ∅ in
  fs !! ("ResultsSequential", "Seed 0.csv")
  = Some [[Num (PyInt 0); Num (PyFloat 1.1474619770878338%float)]]
  /\ fs !! ("ResultsSequential", "Seed 1.csv")
     = Some [[Num (PyInt 1); Num (PyFloat 1.2323838837451726%float)]]
  /\ fs !! ("ResultsSequential", "Seed 2.csv") = None
  /\ size fs = 2.
Proof. by vm_compute. Qed.

Example pool_files_out_of_order :
  let fs := (RunSimParallel.run (rng_state:=Z) 2 2 [1; 0] ∅).2 in
  fs !! ("ResultsParallel", "Seed 0.csv")
  = Some [[Num (PyInt 0); Num (PyFloat 1.1474619770878338%float)]]
  /\ fs !! ("ResultsParallel", "Seed 1.csv")
     = Some [[Num (PyInt 1); Num (PyFloat 1.2323838837451726%float)]]
  /\ size fs = 2.
Proof. by vm_compute. Qed.

Example pool_results_out_of_order :
  (ParallelMultiSim.starmap_call (rng_state:=Z) 2 [1; 0]
     (ParallelMultiSim.init 2) ∅).1
  = Some [OneSim.mk 1449466924%Z (RVGs.mkBeta 1 2)
            (PyFloat 1.1474619770878338%float) 0;
          OneSim.mk 1147902781%Z (RVGs.mkBeta 1 2)
            (PyFloat 1.2323838837451726%float) 1].
Proof. by vm_compute. Qed.

Example pool_leaves_models_untouched :
  (RunSimParallel.run (rng_state:=Z) 2 2 [1; 0] ∅).1
  = ParallelMultiSim.mk [OneSim.init 0; OneSim.init 1].
Proof. by vm_compute. Qed.

Example pool_with_unfinished_task :
  (ParallelMultiSim.starmap_call (rng_state:=Z) 2 [1]
     (ParallelMultiSim.init 2) ∅).1 = None.
Proof. by vm_compute. Qed.

Example simclasses2_accumulates_across_runs :
  let once := (SimClasses2.OneSim.simulate 1
                 (SimClasses2.OneSim.init (rng_state:=Z) 0)).2 in
  let twice := (SimClasses2.OneSim.simulate 1 once).2 in
  SimClasses2.OneSim.obs twice
  = [PyFloat 0.41276989176885737%float; PyFloat 1.1474619770878338%float].
Proof. by vm_compute. Qed.

(** ** Lists, ranges and file names *)

Lemma range_nonpos (n : Z) : (n <= 0)%Z -> range n = [].
Proof. intros Hn. unfold range. by rewrite seqZ_nil. Qed.

Lemma range_length (n : Z) : length (range n) = Z.to_nat n.
Proof. unfold range. apply length_seqZ. Qed.

Lemma range_lookup (n : Z) (i : nat) (s : Z) :
  range n !! i = Some s <-> s = Z.of_nat i /\ (Z.of_nat i < n)%Z.
Proof. unfold range. rewrite lookup_seqZ. by rewrite Z.add_0_l. Qed.

Lemma range_elem_of (n s : Z) : s ∈ range n <-> (0 <= s < n)%Z.
Proof. unfold range. rewrite elem_of_seqZ. lia. Qed.

Lemma fold_left_snoc_fmap {A B : Type} (f : A -> B) (l : list A) (acc : list B) :
  fold_left (fun acc x => acc ++ [f x]) l acc = acc ++ (f <$> l).
Proof.
  revert acc. induction l as [|x l IH]; intros acc; simpl.
  - by rewrite app_nil_r.
  - rewrite IH. by rewrite <- app_assoc.
Qed.

Lemma fold_left_fmap {A B C : Type} (f : A -> B -> A) (g : C -> B)
    (l : list C) (acc : A) :
  fold_left f (g <$> l) acc = fold_left (fun acc x => f acc (g x)) l acc.
Proof. revert acc. induction l as [|x l IH]; intros acc; simpl; auto. Qed.

(** A fold whose steps commute does not see the order of its list. *)
Lemma fold_left_commute_perm {S I : Type} (f : S -> I -> S) :
  (forall s i j, f (f s i) j = f (f s j) i) ->
  forall l1 l2, l1 ≡ₚ l2 -> forall s, fold_left f l1 s = fold_left f l2 s.
Proof.
  intros Hcomm l1 l2 Hperm.
  induction Hperm as [|x l1 l2 _ IH|x y l|l1 l2 l3 _ IH1 _ IH2]; intros s; simpl.
  - reflexivity.
  - apply IH.
  - by rewrite Hcomm.
  - by rewrite IH1.
Qed.

Lemma string_length_app (s t : string) :
  String.length (s +:+ t) = String.length s + String.length t.
Proof. induction s as [|c s IH]; simpl; [done|]. by rewrite IH. Qed.

Lemma string_app_inv_tail (s1 s2 t : string) : s1 +:+ t = s2 +:+ t -> s1 = s2.
Proof.
  revert s2. induction s1 as [|c s1 IH]; intros [|d s2] Heq; simpl in *.
  - reflexivity.
  - apply (f_equal String.length) in Heq. simpl in Heq.
    rewrite !string_length_app in Heq. simpl in Heq. lia.
  - apply (f_equal String.length) in Heq. simpl in Heq.
    rewrite !string_length_app in Heq. simpl in Heq. lia.
  - injection Heq as -> Heq. f_equal. by apply IH.
Qed.

Lemma file_of_seed_inj (s1 s2 : Z) : file_of_seed s1 = file_of_seed s2 -> s1 = s2.
Proof.
  unfold file_of_seed, str. intros Heq.
  apply string_app_inv_tail in Heq.
  apply (inj (String.app "Seed ")) in Heq.
  by apply (inj pretty) in Heq.
Qed.

(** Writing a list of files one after the other, read back file by file. *)
Section writes.
Context {A : Type} (path : A -> string * string) (rows : A -> list (list cell)).

Lemma write_all_other (l : list A) (fs : FS) (p : string * string) :
  (forall x, x ∈ l -> path x <> p) -> write_all path rows l fs !! p = fs !! p.
Proof.
  unfold write_all. revert fs. induction l as [|y l IH]; intros fs Hp; simpl.
  - reflexivity.
  - rewrite IH by (intros x Hx; apply Hp; by right).
    apply lookup_insert_ne, Hp. by left.
Qed.

Lemma write_all_lookup (l : list A) (fs : FS) (x : A) :
  x ∈ l -> (forall y, y ∈ l -> path y = path x -> rows y = rows x) ->
  write_all path rows l fs !! path x = Some (rows x).
Proof.
  unfold write_all. induction l as [|y l IH] using rev_ind; intros Hx Hsame.
  - by apply elem_of_nil in Hx.
  - rewrite fold_left_app. simpl.
    destruct (decide (path y = path x)) as [Heq|Hne].
    + rewrite Heq, lookup_insert_eq. f_equal. apply Hsame; [|done].
      apply elem_of_app. right. by apply list_elem_of_singleton.
    + rewrite lookup_insert_ne by done. apply IH.
      * apply elem_of_app in Hx as [Hx|Hx]; [done|].
        apply list_elem_of_singleton in Hx. by subst.
      * intros z Hz. apply Hsame, elem_of_app. by left.
Qed.

End writes.

(** ** The pool: tasks that write distinct files commute *)

Section pool_facts.
Context {A B : Type} (func : A -> FS -> B * FS).
Context (g : A -> B) (path : A -> string * string) (rows : A -> list (list cell)).
Hypothesis func_writes :
  forall x fs, func x fs = (g x, <[path x := rows x]> fs).
Variable args : list A.
Hypothesis path_inj :
  forall i j x y, args !! i = Some x -> args !! j = Some y ->
    path x = path y -> i = j.

Lemma run_task_commute (st : list (option B) * FS) (i j : nat) :
  mp.run_task func args (mp.run_task func args st i) j
  = mp.run_task func args (mp.run_task func args st j) i.
Proof.
  unfold mp.run_task.
  destruct (args !! i) as [x|] eqn:Hi, (args !! j) as [y|] eqn:Hj;
    rewrite ?func_writes; simpl; rewrite ?func_writes; try reflexivity.
  destruct (decide (i = j)) as [->|Hne].
  - by simplify_eq.
  - f_equal.
    + by apply list_insert_insert_ne.
    + apply insert_insert_ne. intros Hp. apply Hne. symmetry. eauto.
Qed.

Lemma run_tasks_in_order (pre suf : list A) (fs : FS) :
  args = pre ++ suf ->
  fold_left (mp.run_task func args) (seq (length pre) (length suf))
    ((Some <$> (g <$> pre)) ++ replicate (length suf) None, fs)
  = (Some <$> (g <$> args), write_all path rows suf fs).
Proof.
  revert pre fs. induction suf as [|x suf IH]; intros pre fs Hargs.
  - simpl. rewrite app_nil_r in *. by subst.
  - simpl. unfold mp.run_task at 2.
    assert (args !! length pre = Some x) as ->.
    { rewrite Hargs. by apply list_lookup_middle. }
    rewrite func_writes. simpl.
    rewrite insert_app_r_alt by (by rewrite !length_fmap).
    rewrite !length_fmap, Nat.sub_diag. simpl.
    specialize (IH (pre ++ [x]) (<[path x := rows x]> fs)).
    rewrite !fmap_app, length_app, <- !app_assoc in IH. simpl in IH.
    rewrite Nat.add_1_r in IH. by apply IH.
Qed.

Lemma starmap_any_schedule (sched : list nat) (fs : FS) :
  sched ≡ₚ seq 0 (length args) ->
  mp.starmap func args sched fs
  = (Some (g <$> args), write_all path rows args fs).
Proof.
  intros Hperm. unfold mp.starmap.
  rewrite (fold_left_commute_perm _ run_task_commute _ _ Hperm).
  pose proof (run_tasks_in_order [] args fs eq_refl) as Horder.
  simpl in Horder. rewrite Horder. simpl. f_equal.
  by apply mapM_fmap_Some.
Qed.

End pool_facts.

(** ** The accumulation loop *)

Section engine_facts.
Context {rng_state : Type} {source : RVGs.RandomSource rng_state}.

Lemma steps_accumulate (l : list Z) (m : OneSim.t rng_state) :
  OneSim.beta m = RVGs.mkBeta 1 2 ->
  fold_left OneSim.simulate_step l m
  = OneSim.mk
      (Spec.accumulate (length l) (OneSim.sum m) (OneSim.rng m)).2
      (OneSim.beta m)
      (Spec.accumulate (length l) (OneSim.sum m) (OneSim.rng m)).1
      (OneSim.seed m).
Proof.
  revert m. induction l as [|i l IH]; intros m Hbeta; simpl.
  - by destruct m.
  - rewrite IH.
    + unfold OneSim.simulate_step, Spec.draw_pair. rewrite Hbeta.
      destruct (RVGs.random_sample (OneSim.rng m)) as [u r1].
      by destruct (RVGs.sample (RVGs.mkBeta 1 2) r1) as [v r2].
    + unfold OneSim.simulate_step.
      destruct (RVGs.random_sample (OneSim.rng m)) as [u r1].
      by destruct (RVGs.sample (OneSim.beta m) r1) as [v r2].
Qed.

Lemma steps_seed (l : list Z) (m : OneSim.t rng_state) :
  OneSim.seed (fold_left OneSim.simulate_step l m) = OneSim.seed m.
Proof.
  revert m. induction l as [|i l IH]; intros m; simpl; [done|].
  rewrite IH. unfold OneSim.simulate_step.
  destruct (RVGs.random_sample (OneSim.rng m)) as [u r1].
  by destruct (RVGs.sample (OneSim.beta m) r1) as [v r2].
Qed.

Lemma simulate_seed (n : Z) (m : OneSim.t rng_state) :
  OneSim.seed (OneSim.simulate n m).2 = OneSim.seed m.
Proof. unfold OneSim.simulate. simpl. by rewrite steps_seed. Qed.

Lemma simulate_accumulate (n : Z) (m : OneSim.t rng_state) :
  OneSim.beta m = RVGs.mkBeta 1 2 ->
  OneSim.simulate n m
  = (PyNone,
     OneSim.mk
       (Spec.accumulate (Z.to_nat n) (PyInt 0) (OneSim.rng m)).2
       (OneSim.beta m)
       (Spec.accumulate (Z.to_nat n) (PyInt 0) (OneSim.rng m)).1
       (OneSim.seed m)).
Proof.
  intros Hbeta. unfold OneSim.simulate.
  rewrite steps_accumulate by done. simpl. by rewrite range_length.
Qed.

Lemma steps2_accumulate (l : list Z) (m : SimClasses2.OneSim.t rng_state) :
  SimClasses2.OneSim.beta m = RVGs.mkBeta 1 2 ->
  fold_left SimClasses2.OneSim.simulate_step l m
  = SimClasses2.OneSim.mk
      (Spec.accumulate (length l) (SimClasses2.OneSim.sum m)
         (SimClasses2.OneSim.rng m)).2
      (SimClasses2.OneSim.beta m)
      (Spec.accumulate (length l) (SimClasses2.OneSim.sum m)
         (SimClasses2.OneSim.rng m)).1
      (SimClasses2.OneSim.obs m)
      (SimClasses2.OneSim.num m).
Proof.
  revert m. induction l as [|i l IH]; intros m Hbeta; simpl.
  - by destruct m.
  - rewrite IH.
    + unfold SimClasses2.OneSim.simulate_step, Spec.draw_pair. rewrite Hbeta.
      destruct (RVGs.random_sample (SimClasses2.OneSim.rng m)) as [u r1].
      by destruct (RVGs.sample (RVGs.mkBeta 1 2) r1) as [v r2].
    + unfold SimClasses2.OneSim.simulate_step.
      destruct (RVGs.random_sample (SimClasses2.OneSim.rng m)) as [u r1].
      by destruct (RVGs.sample (SimClasses2.OneSim.beta m) r1) as [v r2].
Qed.

End engine_facts.

(** ** The replication set, the pool workers and the drivers *)

Lemma fold_left_ext {A B : Type} (f g : A -> B -> A) (l : list B) (acc : A) :
  (forall a x, f a x = g a x) -> fold_left f l acc = fold_left g l acc.
Proof.
  intros Hfg. revert acc. induction l as [|x l IH]; intros acc; simpl; [done|].
  by rewrite Hfg, IH.
Qed.

Section run_facts.
Context {rng_state : Type} {source : RVGs.RandomSource rng_state}.

Lemma outcome_run (seed n : Z) :
  outcome (rng_state:=rng_state) seed n = Spec.run seed (Z.to_nat n).
Proof.
  unfold outcome, Spec.run. by rewrite simulate_accumulate.
Qed.

Lemma init_models (N : Z) :
  ParallelMultiSim.models (ParallelMultiSim.init (rng_state:=rng_state) N)
  = OneSim.init <$> range N.
Proof. unfold ParallelMultiSim.init. simpl. by rewrite fold_left_snoc_fmap. Qed.

Lemma init_args (N n : Z) :
  ParallelMultiSim.args n (ParallelMultiSim.init (rng_state:=rng_state) N)
  = (fun seed => (OneSim.init seed, n)) <$> range N.
Proof.
  unfold ParallelMultiSim.args. rewrite init_models.
  by rewrite <- list_fmap_compose.
Qed.

Lemma simulate_this_model_writes (m : OneSim.t rng_state) (n : Z) (fs : FS) :
  simulate_this_model m n fs
  = ((OneSim.simulate n m).2,
     <[("ResultsParallel", file_of_seed (OneSim.seed m))
       := [[Num (PyInt (OneSim.seed m)); Num (OneSim.sum (OneSim.simulate n m).2)]]]> fs).
Proof.
  unfold simulate_this_model, OneSim.export_results, IO.write_csv, file_of_seed.
  simpl. by rewrite steps_seed.
Qed.

Lemma starmap_call_any_schedule (N n : Z) (sched : list nat) (fs : FS) :
  sched ≡ₚ seq 0 (Z.to_nat N) ->
  ParallelMultiSim.starmap_call n sched (ParallelMultiSim.init N) fs
  = (Some ((fun seed => (OneSim.simulate n (OneSim.init seed)).2) <$> range N),
     write_all (fun seed => ("ResultsParallel", file_of_seed seed))
       (result_rows (rng_state:=rng_state) n) (range N) fs).
Proof.
  intros Hperm. unfold ParallelMultiSim.starmap_call.
  rewrite (starmap_any_schedule _
             (fun x => (OneSim.simulate x.2 x.1).2)
             (fun x => ("ResultsParallel", file_of_seed (OneSim.seed x.1)))
             (fun x => [[Num (PyInt (OneSim.seed x.1));
                         Num (OneSim.sum (OneSim.simulate x.2 x.1).2)]])).
  - rewrite init_args. f_equal.
    + by rewrite <- list_fmap_compose.
    + unfold write_all. by rewrite fold_left_fmap.
  - intros [m k] fs'. apply simulate_this_model_writes.
  - rewrite init_args. intros i j x y Hi Hj Hpath.
    rewrite list_lookup_fmap in Hi, Hj.
    destruct (range N !! i) as [si|] eqn:Hsi; [|done].
    destruct (range N !! j) as [sj|] eqn:Hsj; [|done].
    apply range_lookup in Hsi as [-> _]. apply range_lookup in Hsj as [-> _].
    injection Hi as <-. injection Hj as <-. apply (f_equal snd) in Hpath.
    cbn [fst snd OneSim.seed OneSim.init] in Hpath.
    apply file_of_seed_inj in Hpath. lia.
  - by rewrite init_args, length_fmap, range_length.
Qed.

Lemma loop_writes (N n : Z) (fs : FS) :
  RunSimSequential.loop N n fs
  = write_all (fun seed => ("ResultsSequential", file_of_seed seed))
      (result_rows (rng_state:=rng_state) n) (range N) fs.
Proof.
  unfold RunSimSequential.loop, write_all. apply fold_left_ext.
  intros fs' seed.
  unfold RunSimSequential.body, OneSim.export_results, IO.write_csv.
  simpl. by rewrite steps_seed.
Qed.

Lemma written_lookup (dir : string) (N n seed : Z) (fs : FS) :
  (0 <= seed < N)%Z ->
  write_all (fun seed => (dir, file_of_seed seed))
    (result_rows (rng_state:=rng_state) n) (range N) fs
  !! (dir, file_of_seed seed) = Some (result_rows n seed).
Proof.
  intros Hseed.
  apply (write_all_lookup (fun seed => (dir, file_of_seed seed))).
  - by apply range_elem_of.
  - intros y _ Hy. apply (f_equal snd) in Hy. cbn [snd] in Hy.
    apply file_of_seed_inj in Hy. by subst.
Qed.

Lemma written_other (dir : string) (N n : Z) (fs : FS) (p : string * string) :
  (forall seed, (0 <= seed < N)%Z -> p <> (dir, file_of_seed seed)) ->
  write_all (fun seed => (dir, file_of_seed seed))
    (result_rows (rng_state:=rng_state) n) (range N) fs !! p = fs !! p.
Proof.
  intros Hp. apply write_all_other. intros seed Hseed%range_elem_of Heq.
  by apply (Hp seed).
Qed.

Lemma simulate2_fresh_sum (seed n : Z) :
  SimClasses2.OneSim.sum
    (SimClasses2.OneSim.simulate n
       (SimClasses2.OneSim.init (rng_state:=rng_state) seed)).2
  = outcome (rng_state:=rng_state) seed n.
Proof.
  unfold outcome, SimClasses2.OneSim.simulate. simpl.
  rewrite steps2_accumulate by done.
  unfold OneSim.simulate. rewrite steps_accumulate by done. simpl.
  by rewrite range_length.
Qed.

Lemma multisim_body_obs (n i : Z) (self : SimClasses2.MultiSim.t) :
  SimClasses2.MultiSim.obs
    (SimClasses2.MultiSim.body (rng_state:=rng_state) n self i)
  = SimClasses2.MultiSim.obs self ++ [outcome (rng_state:=rng_state) i n].
Proof.
  unfold SimClasses2.MultiSim.body.
  pose proof (simulate2_fresh_sum i n) as Hsum.
  destruct (SimClasses2.OneSim.simulate n (SimClasses2.OneSim.init i))
    as [ret sim]. simpl in *. by rewrite Hsum.
Qed.

Lemma multisim_obs (n N : Z) (self : SimClasses2.MultiSim.t) :
  SimClasses2.MultiSim.obs
    (fold_left (SimClasses2.MultiSim.body (rng_state:=rng_state) n)
       (range N) self)
  = SimClasses2.MultiSim.obs self
    ++ ((fun seed => outcome (rng_state:=rng_state) seed n) <$> range N).
Proof.
  generalize (range N) as l. intros l. revert self.
  induction l as [|i l IH]; intros self; cbn [fold_left fmap list_fmap].
  - by rewrite app_nil_r.
  - by rewrite IH, multisim_body_obs, <- app_assoc.
Qed.

End run_facts.

(** ** The pool run of a replication set *)

Section pool_run.
Context {rng_state : Type} {source : RVGs.RandomSource rng_state}.

Lemma parallel_files (N n : Z) (sched : list nat) (fs : FS) :
  sched ≡ₚ seq 0 (Z.to_nat N) ->
  ParallelMultiSim.simulate n sched (ParallelMultiSim.init N) fs
  = (PyNone, ParallelMultiSim.init N,
     write_all (fun seed => ("ResultsParallel", file_of_seed seed))
       (result_rows (rng_state:=rng_state) n) (range N) fs).
Proof.
  intros Hperm. unfold ParallelMultiSim.simulate.
  by rewrite starmap_call_any_schedule.
Qed.

Lemma pool_results_outcomes (N n : Z) :
  (fun m : OneSim.t rng_state => (OneSim.seed m, OneSim.sum m))
    <$> ((fun seed => (OneSim.simulate n (OneSim.init seed)).2) <$> range N)
  = (fun seed => (seed, outcome (rng_state:=rng_state) seed n)) <$> range N.
Proof.
  rewrite <- list_fmap_compose. apply list_fmap_ext. intros i seed _. simpl.
  by rewrite steps_seed.
Qed.

End pool_run.

(** C1 (non-interference).  For every replication count [N] and step count
    [n], and whatever the order in which the pool completes the [N] tasks,
    [ParallelMultiSim.simulate] produces for each seed the outcome that a
    fresh [OneSim(seed)] run on its own produces: the models the workers hand
    back carry, seed by seed, the sums of the sequential runs; each file
    [Seed k.csv] written under [ResultsParallel] holds the row the sequential
    driver writes under [ResultsSequential]; and [MultiSim.simulate], which
    runs the seeds one after the other, collects the same sums in seed
    order. *)
Theorem parallel_outcomes_match_sequential
    {rng_state : Type} {source : RVGs.RandomSource rng_state}
    (N n : Z) (sched : list nat) (fs_par fs_seq : FS) :
  sched ≡ₚ seq 0 (Z.to_nat N) ->
  let set := ParallelMultiSim.init (rng_state:=rng_state) N in
  (exists results,
      (ParallelMultiSim.starmap_call n sched set fs_par).1 = Some results
      /\ (fun m => (OneSim.seed m, OneSim.sum m)) <$> results
         = (fun seed => (seed, outcome (rng_state:=rng_state) seed n))
             <$> range N)
  /\ (forall seed, (0 <= seed < N)%Z ->
        (ParallelMultiSim.simulate n sched set fs_par).2
          !! ("ResultsParallel", file_of_seed seed)
        = RunSimSequential.loop (rng_state:=rng_state) N n fs_seq
          !! ("ResultsSequential", file_of_seed seed))
  /\ (forall name,
        (ParallelMultiSim.simulate n sched set ∅).2 !! ("ResultsParallel", name)
        = RunSimSequential.loop (rng_state:=rng_state) N n ∅
          !! ("ResultsSequential", name))
  /\ SimClasses2.MultiSim.obs
       (SimClasses2.MultiSim.simulate (rng_state:=rng_state) n N
          SimClasses2.MultiSim.init).2
     = (fun seed => outcome (rng_state:=rng_state) seed n) <$> range N.
Proof.
  intros Hperm set. subst set.
  rewrite starmap_call_any_schedule, !parallel_files, !loop_writes by done.
  cbn [fst snd]. split; [|split; [|split]].
  - eexists. split; [reflexivity|]. apply pool_results_outcomes.
  - intros seed Hseed. by rewrite !written_lookup.
  - intros name.
    destruct (decide (name ∈ file_of_seed <$> range N)) as [Hin|Hout].
    + apply list_elem_of_fmap in Hin as (seed & -> & Hseed%range_elem_of).
      by rewrite !written_lookup.
    + rewrite !written_other; [done|intros seed Hseed Heq..];
        apply Hout, list_elem_of_fmap; exists seed;
        (split; [congruence|by apply range_elem_of]).
  - unfold SimClasses2.MultiSim.simulate.
    pose proof (multisim_obs (rng_state:=rng_state) n N
                  SimClasses2.MultiSim.init) as Hobs.
    by destruct (Stat.summarize _).
Qed.

Lemma parallel_outcomes_match_sequential_witness :
  [2; 0; 1] ≡ₚ seq 0 (Z.to_nat 3)
  /\ exists results,
       (ParallelMultiSim.starmap_call (rng_state:=Z) 2 [2; 0; 1]
          (ParallelMultiSim.init 3) ∅).1 = Some results
       /\ (fun m => (OneSim.seed m, OneSim.sum m)) <$> results
          = (fun seed => (seed, outcome (rng_state:=Z) seed 2)) <$> range 3.
Proof.
  assert ([2; 0; 1] ≡ₚ seq 0 (Z.to_nat 3)) as Hperm.
  { apply (bool_decide_unpack _). vm_compute. exact I. }
  split; [exact Hperm|].
  exact (proj1 (parallel_outcomes_match_sequential 3 2 [2; 0; 1] ∅ ∅ Hperm)).
Defined.

(** C2, as stated, fails: the replication set stores no outcome.
    [ParallelMultiSim.simulate] does not keep the list [starmap] returns, and
    the workers simulate copies of the models; after the run of one
    replication over one step the set's only model still holds the sum 0,
    which is not the outcome of seed 0. *)
Lemma parallel_set_stores_no_outcome :
  let set := ParallelMultiSim.init (rng_state:=Z) 1 in
  let after := (ParallelMultiSim.simulate 1 [0] set ∅).1.2 in
  OneSim.sum <$> ParallelMultiSim.models after = [PyInt 0]
  /\ OneSim.sum <$> ParallelMultiSim.models after
     <> (fun seed => outcome (rng_state:=Z) seed 1) <$> range 1.
Proof.
  intros set after. split; [by vm_compute|]. vm_compute. discriminate.
Qed.

(** C2, amended.  Let the pool complete the [N] tasks in any order.  The
    results of the run are filed by seed, never by order of completion: the
    row of seed [k], holding the outcome of seed [k], is stored in the file
    named after [k] under [ResultsParallel], and entry [k] of the list
    [starmap] returns is the simulated model of seed [k]; two schedules
    leave the same list and the same files.  The replication set itself
    stores no outcome: [simulate] drops that list, and after the run the set
    is the set as built, entry [k] of its [models] being the model of seed
    [k] with the sum 0 it was built with. *)
Theorem parallel_results_filed_by_seed
    {rng_state : Type} {source : RVGs.RandomSource rng_state}
    (N n : Z) (sched sched' : list nat) (fs : FS) (k : nat) :
  sched ≡ₚ seq 0 (Z.to_nat N) ->
  sched' ≡ₚ seq 0 (Z.to_nat N) ->
  (Z.of_nat k < N)%Z ->
  let set := ParallelMultiSim.init (rng_state:=rng_state) N in
  (exists results r,
      (ParallelMultiSim.starmap_call n sched set fs).1 = Some results
      /\ length results = Z.to_nat N
      /\ results !! k = Some r
      /\ OneSim.seed r = Z.of_nat k
      /\ OneSim.sum r = outcome (rng_state:=rng_state) (Z.of_nat k) n)
  /\ (ParallelMultiSim.simulate n sched set fs).1 = (PyNone, set)
  /\ (exists m,
        ParallelMultiSim.models (ParallelMultiSim.simulate n sched set fs).1.2
          !! k = Some m
        /\ OneSim.seed m = Z.of_nat k
        /\ OneSim.sum m = PyInt 0)
  /\ (ParallelMultiSim.simulate n sched set fs).2
       !! ("ResultsParallel", file_of_seed (Z.of_nat k))
     = Some [[Num (PyInt (Z.of_nat k));
              Num (outcome (rng_state:=rng_state) (Z.of_nat k) n)]]
  /\ ParallelMultiSim.starmap_call n sched set fs
     = ParallelMultiSim.starmap_call n sched' set fs
  /\ ParallelMultiSim.simulate n sched set fs
     = ParallelMultiSim.simulate n sched' set fs.
Proof.
  intros Hperm Hperm' Hk set. subst set.
  assert (range N !! k = Some (Z.of_nat k)) as Hrange.
  { by apply range_lookup. }
  rewrite !starmap_call_any_schedule, !parallel_files by done.
  cbn [fst snd]. split; [|split; [|split; [|split]]]; try reflexivity.
  - eexists _, _. split; [reflexivity|].
    split; [by rewrite length_fmap, range_length|].
    split; [by rewrite list_lookup_fmap, Hrange|].
    split; [by rewrite simulate_seed|reflexivity].
  - exists (OneSim.init (Z.of_nat k)). split; [|by split].
    by rewrite init_models, list_lookup_fmap, Hrange.
  - rewrite written_lookup by lia. reflexivity.
  - by split.
Qed.

Lemma parallel_results_filed_by_seed_witness :
  [2; 0; 1] ≡ₚ seq 0 (Z.to_nat 3)
  /\ [1; 2; 0] ≡ₚ seq 0 (Z.to_nat 3)
  /\ (Z.of_nat 1 < 3)%Z
  /\ (ParallelMultiSim.simulate (rng_state:=Z) 2 [2; 0; 1]
        (ParallelMultiSim.init 3) ∅).1
     = (PyNone, ParallelMultiSim.init 3)
  /\ ParallelMultiSim.simulate (rng_state:=Z) 2 [2; 0; 1]
       (ParallelMultiSim.init 3) ∅
     = ParallelMultiSim.simulate (rng_state:=Z) 2 [1; 2; 0]
         (ParallelMultiSim.init 3) ∅.
Proof.
  assert ([2; 0; 1] ≡ₚ seq 0 (Z.to_nat 3)) as Hperm.
  { apply (bool_decide_unpack _). vm_compute. exact I. }
  assert ([1; 2; 0] ≡ₚ seq 0 (Z.to_nat 3)) as Hperm'.
  { apply (bool_decide_unpack _). vm_compute. exact I. }
  assert (Z.of_nat 1 < 3)%Z as Hk by lia.
  split; [exact Hperm|]. split; [exact Hperm'|]. split; [exact Hk|].
  pose proof (parallel_results_filed_by_seed 3 2 [2; 0; 1] [1; 2; 0] ∅ 1
                Hperm Hperm' Hk) as (_ & Hset & _ & _ & _ & Hsame).
  split; [exact Hset|exact Hsame].
Defined.

(** C10 (the pool worker always exports).  For every model and step count,
    [simulate_this_model] hands back the simulated model and has written
    that model's row to its file under the directory [ResultsParallel]; no
    file of any other directory is touched, and the function takes no
    directory.  Hence a pool run of [N] replications leaves one file per
    seed under [ResultsParallel], whatever the order of completion. *)
Theorem worker_always_exports_to_ResultsParallel
    {rng_state : Type} {source : RVGs.RandomSource rng_state}
    (model : OneSim.t rng_state) (N n : Z) (sched : list nat) (fs : FS) :
  sched ≡ₚ seq 0 (Z.to_nat N) ->
  (simulate_this_model model n fs).1 = (OneSim.simulate n model).2
  /\ (simulate_this_model model n fs).2
       !! ("ResultsParallel", file_of_seed (OneSim.seed model))
     = Some [[Num (PyInt (OneSim.seed model));
              Num (OneSim.sum (OneSim.simulate n model).2)]]
  /\ (forall directory name, directory <> "ResultsParallel" ->
        (simulate_this_model model n fs).2 !! (directory, name)
        = fs !! (directory, name))
  /\ (forall seed, (0 <= seed < N)%Z ->
        (ParallelMultiSim.simulate n sched
           (ParallelMultiSim.init (rng_state:=rng_state) N) fs).2
          !! ("ResultsParallel", file_of_seed seed)
        = Some (result_rows n seed))
  /\ (forall directory name, directory <> "ResultsParallel" ->
        (ParallelMultiSim.simulate n sched
           (ParallelMultiSim.init (rng_state:=rng_state) N) fs).2
          !! (directory, name)
        = fs !! (directory, name)).
Proof.
  intros Hperm. rewrite simulate_this_model_writes, parallel_files by done.
  cbn [fst snd]. split; [reflexivity|]. split; [apply lookup_insert_eq|].
  split; [|split].
  - intros directory name Hdir. apply lookup_insert_ne. congruence.
  - intros seed Hseed. by apply written_lookup.
  - intros directory name Hdir. apply written_other. congruence.
Qed.

Lemma worker_always_exports_to_ResultsParallel_witness :
  [2; 0; 1] ≡ₚ seq 0 (Z.to_nat 3)
  /\ forall seed, (0 <= seed < 3)%Z ->
       (ParallelMultiSim.simulate (rng_state:=Z) 2 [2; 0; 1]
          (ParallelMultiSim.init 3) ∅).2
         !! ("ResultsParallel", file_of_seed seed)
       = Some (result_rows 2 seed).
Proof.
  assert ([2; 0; 1] ≡ₚ seq 0 (Z.to_nat 3)) as Hperm.
  { apply (bool_decide_unpack _). vm_compute. exact I. }
  split; [exact Hperm|].
  exact (proj1 (proj2 (proj2 (proj2
    (worker_always_exports_to_ResultsParallel (OneSim.init 0) 3 2 [2; 0; 1] ∅
       Hperm))))).
Defined.

(** ** A single replication *)

(** C3 (determinism).  For any seed [s] and step count [n], two [OneSim]
    objects whose source was seeded from [s] at construction and whose Beta
    distribution is the constructor's hold bit-identical sums after
    [simulate(n)], whatever else the two objects hold: the sum is the one a
    fresh [OneSim(seed=s)] produces, a function of [s] and [n] alone. *)
Theorem seeded_runs_are_bit_identical
    {rng_state : Type} {source : RVGs.RandomSource rng_state}
    (s n : Z) (m1 m2 : OneSim.t rng_state) :
  OneSim.rng m1 = RVGs.RNG s -> OneSim.beta m1 = RVGs.mkBeta 1 2 ->
  OneSim.rng m2 = RVGs.RNG s -> OneSim.beta m2 = RVGs.mkBeta 1 2 ->
  OneSim.sum (OneSim.simulate n m1).2 = OneSim.sum (OneSim.simulate n m2).2
  /\ OneSim.sum (OneSim.simulate n m1).2 = outcome (rng_state:=rng_state) s n
  /\ outcome (rng_state:=rng_state) s n = Spec.run s (Z.to_nat n).
Proof.
  intros Hrng1 Hbeta1 Hrng2 Hbeta2.
  rewrite outcome_run. unfold Spec.run.
  rewrite !simulate_accumulate by done. simpl.
  by rewrite Hrng1, Hrng2.
Qed.

Lemma seeded_runs_are_bit_identical_witness :
  let m1 := OneSim.init (rng_state:=Z) 5 in
  let m2 := OneSim.mk (RVGs.RNG (rng_state:=Z) 5) (RVGs.mkBeta 1 2)
              (PyFloat 3) 99 in
  OneSim.rng m1 = RVGs.RNG 5 /\ OneSim.beta m1 = RVGs.mkBeta 1 2
  /\ OneSim.rng m2 = RVGs.RNG 5 /\ OneSim.beta m2 = RVGs.mkBeta 1 2
  /\ OneSim.sum (OneSim.simulate 4 m1).2 = OneSim.sum (OneSim.simulate 4 m2).2.
Proof.
  intros m1 m2.
  split; [reflexivity|]. split; [reflexivity|].
  split; [reflexivity|]. split; [reflexivity|].
  exact (proj1 (seeded_runs_are_bit_identical 5 4 m1 m2
                  eq_refl eq_refl eq_refl eq_refl)).
Defined.

Lemma same_number_differ (x y : pynum) :
  same_number x x = true -> same_number x y = false -> x <> y.
Proof. intros Hxx Hxy ->. congruence. Qed.

(** C4, as stated, fails: the source is seeded once, at construction, so the
    second of two runs draws the next variates of the stream and ends on
    another sum than the first. *)
Lemma second_run_differs_from_first :
  let m := OneSim.init (rng_state:=Z) 0 in
  OneSim.sum (OneSim.simulate 1 (OneSim.simulate 1 m).2).2
  <> OneSim.sum (OneSim.simulate 1 m).2.
Proof. intros m. apply same_number_differ; by vm_compute. Qed.

(** C4, amended.  [OneSim.simulate] of SimModel/SimClasses.py sets [sum] to 0
    before it accumulates: the sum an object holds on entry has no effect on
    the run, and after a second call the sum is that of the second call's own
    [n] iterations, accumulated from 0 on the variates that follow those of
    the first call in the object's stream. *)
Theorem rerun_accumulates_from_zero
    {rng_state : Type} {source : RVGs.RandomSource rng_state}
    (n : Z) (m : OneSim.t rng_state) (held : pynum) :
  OneSim.beta m = RVGs.mkBeta 1 2 ->
  let first := (OneSim.simulate n m).2 in
  OneSim.simulate n
    (OneSim.mk (OneSim.rng m) (OneSim.beta m) held (OneSim.seed m))
  = OneSim.simulate n m
  /\ OneSim.rng first
     = (Spec.accumulate (Z.to_nat n) (PyInt 0) (OneSim.rng m)).2
  /\ OneSim.sum (OneSim.simulate n first).2
     = (Spec.accumulate (Z.to_nat n) (PyInt 0) (OneSim.rng first)).1.
Proof.
  intros Hbeta first. subst first. split; [reflexivity|].
  rewrite (simulate_accumulate n m) by done. cbn [snd OneSim.rng].
  split; [reflexivity|].
  by rewrite simulate_accumulate.
Qed.

Lemma rerun_accumulates_from_zero_witness :
  let m := OneSim.init (rng_state:=Z) 0 in
  OneSim.beta m = RVGs.mkBeta 1 2
  /\ OneSim.simulate 3
       (OneSim.mk (OneSim.rng m) (OneSim.beta m) (PyFloat 7) (OneSim.seed m))
     = OneSim.simulate 3 m.
Proof.
  intros m. split; [reflexivity|].
  exact (proj1 (rerun_accumulates_from_zero 3 m (PyFloat 7) eq_refl)).
Defined.

(** C5 (zero-step edge case).  For every seed [s], [simulate(0)] on a fresh
    [OneSim(seed=s)] returns normally and leaves the object as built, its sum
    being the integer 0; so do the [OneSim] of SimClasses2.py and the
    replication of the specification. *)
Theorem zero_steps_yield_zero
    {rng_state : Type} {source : RVGs.RandomSource rng_state} (s : Z) :
  OneSim.simulate 0 (OneSim.init (rng_state:=rng_state) s)
  = (PyNone, OneSim.init s)
  /\ OneSim.sum (OneSim.simulate 0 (OneSim.init (rng_state:=rng_state) s)).2
     = PyInt 0
  /\ SimClasses2.OneSim.sum
       (SimClasses2.OneSim.simulate 0
          (SimClasses2.OneSim.init (rng_state:=rng_state) s)).2
     = PyInt 0
  /\ outcome (rng_state:=rng_state) s 0 = PyInt 0
  /\ Spec.run (rng_state:=rng_state) s 0 = PyInt 0.
Proof. by repeat split. Qed.

(** The draws of a run, counted. *)
Lemma steps_count {rng_state : Type} {base : RVGs.RandomSource rng_state}
    (l : list Z) (c : OneSim.t (Counting.counted rng_state)) :
  Counting.uniform_draws (OneSim.rng (fold_left OneSim.simulate_step l c))
  = Counting.uniform_draws (OneSim.rng c) + length l
  /\ Counting.beta_draws (OneSim.rng (fold_left OneSim.simulate_step l c))
     = Counting.beta_draws (OneSim.rng c) + length l.
Proof.
  revert c. induction l as [|i l IH]; intros c; cbn [fold_left length].
  - by rewrite !Nat.add_0_r.
  - destruct (IH (OneSim.simulate_step c i)) as [-> ->].
    unfold OneSim.simulate_step. simpl.
    destruct (RVGs.random_sample (Counting.inner (OneSim.rng c))) as [u r1].
    simpl.
    destruct (RVGs.sample (OneSim.beta c) r1) as [v r2]. simpl. lia.
Qed.

(** C6, as stated, fails on its last clause: [simulate] has no [return]
    statement, so its caller receives [None], not the sum. *)
Lemma simulate_returns_none :
  let call := OneSim.simulate 1 (OneSim.init (rng_state:=Z) 0) in
  call.1 = PyNone /\ call.1 <> PyNum (OneSim.sum call.2).
Proof. intros call. split; [reflexivity|discriminate]. Qed.

(** C6, amended.  For every step count [k], [simulate(k)] executes exactly
    [k] iterations: it leaves in [sum] what [k] iterations accumulate from 0,
    each adding one uniform and one Beta(1,2) variate drawn from the object's
    own source, and leaves the source where those [k] pairs of draws leave
    it; counted on the source, the run makes [k] uniform and [k] Beta draws.
    The call itself returns [None]: the caller reads the result from
    [sum]. *)
Theorem simulate_runs_n_iterations
    {rng_state : Type} {source : RVGs.RandomSource rng_state}
    (k : nat) (m : OneSim.t rng_state)
    (c : OneSim.t (Counting.counted rng_state)) :
  OneSim.beta m = RVGs.mkBeta 1 2 ->
  OneSim.simulate (Z.of_nat k) m
  = (PyNone,
     OneSim.mk
       (Spec.accumulate k (PyInt 0) (OneSim.rng m)).2
       (OneSim.beta m)
       (Spec.accumulate k (PyInt 0) (OneSim.rng m)).1
       (OneSim.seed m))
  /\ Counting.uniform_draws (OneSim.rng (OneSim.simulate (Z.of_nat k) c).2)
     = Counting.uniform_draws (OneSim.rng c) + k
  /\ Counting.beta_draws (OneSim.rng (OneSim.simulate (Z.of_nat k) c).2)
     = Counting.beta_draws (OneSim.rng c) + k.
Proof.
  intros Hbeta. split.
  - by rewrite simulate_accumulate, Nat2Z.id.
  - unfold OneSim.simulate. cbn [snd].
    pose proof (steps_count (range (Z.of_nat k))
      (OneSim.mk (OneSim.rng c) (OneSim.beta c) (PyInt 0) (OneSim.seed c)))
      as [Hu Hb].
    rewrite range_length, Nat2Z.id in Hu, Hb. by rewrite Hu, Hb.
Qed.

Lemma simulate_runs_n_iterations_witness :
  let m := OneSim.init (rng_state:=Z) 0 in
  let c := OneSim.init (rng_state:=Counting.counted Z) 0 in
  OneSim.beta m = RVGs.mkBeta 1 2
  /\ (OneSim.simulate (Z.of_nat 3) m).1 = PyNone
  /\ Counting.uniform_draws (OneSim.rng (OneSim.simulate (Z.of_nat 3) c).2)
     = Counting.uniform_draws (OneSim.rng c) + 3.
Proof.
  intros m c. split; [reflexivity|].
  pose proof (simulate_runs_n_iterations 3 m c eq_refl) as [Hrun [Hu _]].
  split; [exact (f_equal fst Hrun)|exact Hu].
Defined.

(** ** Configurations the specification rejects *)

Lemma run_no_task {A B : Type} (func : A -> FS -> B * FS) (sched : list nat)
    (st : list (option B) * FS) :
  fold_left (mp.run_task func []) sched st = st.
Proof. induction sched as [|i sched IH]; cbn [fold_left]; [done|]. exact IH. Qed.

(** C7, as stated, fails: no configuration is checked.  Where the
    specification calls for a [ConfigurationError], a negative replication
    count builds a set without models, and a negative step count runs zero
    iterations and leaves the sum at 0. *)
Lemma invalid_configuration_is_clamped :
  Spec.check_configuration (-3) (-5) = Raises ConfigurationError
  /\ ParallelMultiSim.models (ParallelMultiSim.init (rng_state:=Z) (-3)) = []
  /\ OneSim.simulate (-5) (OneSim.init (rng_state:=Z) 0)
     = (PyNone, OneSim.init 0).
Proof. by repeat split. Qed.

(** C7, amended.  A non-positive replication count or a negative step count
    raises nothing.  [ParallelMultiSim(N)] with [N <= 0] holds no model, and
    the pool run of that empty set, whatever the step count and the
    schedule, returns with no file written.  [simulate(n)] with [n < 0]
    returns after zero iterations with the sum at 0 and the source as it
    was. *)
Theorem nonpositive_counts_run_nothing
    {rng_state : Type} {source : RVGs.RandomSource rng_state}
    (N n : Z) (m : OneSim.t rng_state) (sched : list nat) (fs : FS) :
  ((N <= 0)%Z ->
     ParallelMultiSim.init (rng_state:=rng_state) N = ParallelMultiSim.mk []
     /\ ParallelMultiSim.simulate n sched
          (ParallelMultiSim.init (rng_state:=rng_state) N) fs
        = (PyNone, ParallelMultiSim.mk [], fs))
  /\ ((n < 0)%Z ->
       OneSim.simulate n m
       = (PyNone,
          OneSim.mk (OneSim.rng m) (OneSim.beta m) (PyInt 0) (OneSim.seed m))).
Proof.
  split.
  - intros HN.
    assert (ParallelMultiSim.init (rng_state:=rng_state) N
            = ParallelMultiSim.mk []) as Hinit.
    { unfold ParallelMultiSim.init. by rewrite range_nonpos. }
    split; [exact Hinit|]. rewrite Hinit.
    unfold ParallelMultiSim.simulate, ParallelMultiSim.starmap_call, mp.starmap.
    cbn [ParallelMultiSim.args ParallelMultiSim.models fmap list_fmap].
    by rewrite run_no_task.
  - intros Hn. unfold OneSim.simulate. by rewrite range_nonpos by lia.
Qed.

Lemma nonpositive_counts_run_nothing_witness :
  (0 <= 0)%Z /\ (-5 < 0)%Z
  /\ ParallelMultiSim.simulate (rng_state:=Z) 7 [] (ParallelMultiSim.init 0) ∅
     = (PyNone, ParallelMultiSim.mk [], ∅)
  /\ OneSim.simulate (-5) (OneSim.init (rng_state:=Z) 0)
     = (PyNone, OneSim.init 0).
Proof.
  assert (0 <= 0)%Z as HN by lia. assert (-5 < 0)%Z as Hn by lia.
  split; [exact HN|]. split; [exact Hn|]. split.
  - exact (proj2 (proj1 (nonpositive_counts_run_nothing 0 7
                           (OneSim.init (rng_state:=Z) 0) [] ∅) HN)).
  - exact (proj2 (nonpositive_counts_run_nothing 0 (-5)
                    (OneSim.init (rng_state:=Z) 0) [] ∅) Hn).
Defined.

(** ** Export *)

Example file_of_seed_42 : file_of_seed 42 = "Seed 42.csv".
Proof. reflexivity. Qed.

(** C8, as stated, fails for the [OneSim] of PyUsingSimPy/SimClasses2.py:
    its [export_results] takes no directory and names the file after the
    seed alone, so no file [Seed 7.csv] appears; the rows go to [7.csv]
    under [Results]. *)
Lemma simclasses2_export_has_no_seed_prefix :
  let self :=
    (SimClasses2.OneSim.simulate 1
       (SimClasses2.OneSim.init (rng_state:=Z) 7)).2 in
  let fs := (SimClasses2.OneSim.export_results self ∅).2 in
  fs !! ("Results", "Seed 7.csv") = None
  /\ fs !! ("Results", "7.csv")
     = Some [[NumList (SimClasses2.OneSim.obs self)]]
  /\ [[NumList (SimClasses2.OneSim.obs self)]]
     <> [[Num (PyInt 7); Num (SimClasses2.OneSim.sum self)]].
Proof. intros self fs. split; [|split]; [by vm_compute..|discriminate]. Qed.

(** C8, amended.  [OneSim.export_results(directory)] of
    SimModel/SimClasses.py writes exactly one row, [[seed, sum]], to the file
    [Seed {seed}.csv] inside the given directory, and touches no other file;
    the name is fixed by the seed, and two seeds never share one.
    [OneSim.export_results()] of PyUsingSimPy/SimClasses2.py takes no
    directory: it writes to [{seed}.csv] inside [Results], and touches no
    other file. *)
Theorem export_writes_one_row_to_seed_file
    {rng_state : Type} {source : RVGs.RandomSource rng_state}
    (directory : string) (self : OneSim.t rng_state)
    (self2 : SimClasses2.OneSim.t rng_state) (fs : FS) :
  let name := ("Seed " +:+ str (OneSim.seed self)) +:+ ".csv" in
  let fs' := (OneSim.export_results directory self fs).2 in
  let name2 := str (SimClasses2.OneSim.num self2) +:+ ".csv" in
  let fs2 := (SimClasses2.OneSim.export_results self2 fs).2 in
  fs' !! (directory, name)
  = Some [[Num (PyInt (OneSim.seed self)); Num (OneSim.sum self)]]
  /\ (forall p, p <> (directory, name) -> fs' !! p = fs !! p)
  /\ (forall other : OneSim.t rng_state,
        ("Seed " +:+ str (OneSim.seed other)) +:+ ".csv" = name
        <-> OneSim.seed other = OneSim.seed self)
  /\ is_Some (fs2 !! ("Results", name2))
  /\ (forall p, p <> ("Results", name2) -> fs2 !! p = fs !! p).
Proof.
  intros name fs' name2 fs2. subst name fs' name2 fs2.
  unfold OneSim.export_results, SimClasses2.OneSim.export_results, IO.write_csv.
  cbn [snd]. split; [apply lookup_insert_eq|].
  split; [by intros p Hp; apply lookup_insert_ne|].
  split; [|split].
  - intros other. split; [apply file_of_seed_inj|by intros ->].
  - rewrite lookup_insert_eq. by eexists.
  - by intros p Hp; apply lookup_insert_ne.
Qed.

(** ** Summary *)

(** C9 (empty-set error).  [summarize] returns a summary, the mean and the
    count, for one or more outcomes, and raises [EmptyInputError] for none;
    [MultiSim.simulate] with zero iterations on a fresh [MultiSim] summarizes
    no outcome, so the error reaches its caller. *)
Theorem summarize_empty_raises
    {rng_state : Type} {source : RVGs.RandomSource rng_state} (n : Z) :
  Stat.summarize [] = Raises EmptyInputError
  /\ (forall x values, exists stat,
        Stat.summarize (x :: values) = Returns stat
        /\ Stat.count stat = S (length values)
        /\ Stat.mean stat
           = PrimFloat.div (Stat.total (x :: values))
               (float_of_Z (Z.of_nat (S (length values)))))
  /\ (SimClasses2.MultiSim.simulate (rng_state:=rng_state) n 0
        SimClasses2.MultiSim.init).1
     = Raises EmptyInputError.
Proof.
  split; [reflexivity|]. split; [|reflexivity].
  intros x values. by eexists.
Qed.

(** * Further properties of the code *)

(** ** One SimModel [OneSim] over several runs *)

Section onesim_runs.
Context {rng_state : Type} {source : RVGs.RandomSource rng_state}.

Lemma steps_beta (l : list Z) (m : OneSim.t rng_state) :
  OneSim.beta (fold_left OneSim.simulate_step l m) = OneSim.beta m.
Proof.
  revert m. induction l as [|i l IH]; intros m; simpl; [done|].
  rewrite IH. unfold OneSim.simulate_step.
  destruct (RVGs.random_sample (OneSim.rng m)) as [u r1].
  by destruct (RVGs.sample (OneSim.beta m) r1) as [v r2].
Qed.

(** The loop index is not used, and the sum does not steer the source. *)
Lemma steps_rng_only (l l' : list Z) (m m' : OneSim.t rng_state) :
  length l = length l' ->
  OneSim.rng m = OneSim.rng m' -> OneSim.beta m = OneSim.beta m' ->
  OneSim.rng (fold_left OneSim.simulate_step l m)
  = OneSim.rng (fold_left OneSim.simulate_step l' m').
Proof.
  revert l' m m'. induction l as [|i l IH]; intros [|i' l'] m m' Hlen Hrng Hbeta;
    simpl in *; try done.
  apply IH; [lia|..]; unfold OneSim.simulate_step; rewrite Hrng, Hbeta;
    destruct (RVGs.random_sample (OneSim.rng m')) as [u r1];
    by destruct (RVGs.sample (OneSim.beta m') r1) as [v r2].
Qed.

Lemma steps_sum_float (l : list Z) (m : OneSim.t rng_state) :
  l <> [] ->
  exists x, OneSim.sum (fold_left OneSim.simulate_step l m) = PyFloat x.
Proof.
  induction l as [|i l _] using rev_ind; intros Hl; [done|].
  rewrite fold_left_app. simpl. unfold OneSim.simulate_step.
  destruct (RVGs.random_sample _) as [u r1].
  destruct (RVGs.sample _ r1) as [v r2]. simpl. by eexists.
Qed.

Lemma simulate_beta (n : Z) (m : OneSim.t rng_state) :
  OneSim.beta (OneSim.simulate n m).2 = OneSim.beta m.
Proof. unfold OneSim.simulate. simpl. by rewrite steps_beta. Qed.

Lemma after_runs_seed_beta (ns : list Z) (m : OneSim.t rng_state) :
  OneSim.seed (after_runs ns m) = OneSim.seed m
  /\ OneSim.beta (after_runs ns m) = OneSim.beta m.
Proof.
  unfold after_runs. revert m.
  induction ns as [|n ns IH]; intros m; cbn [fold_left]; [done|].
  destruct (IH (OneSim.simulate n m).2) as [-> ->].
  by rewrite simulate_seed, simulate_beta.
Qed.

End onesim_runs.

(** X1.  Whatever runs a SimModel [OneSim] has been through, its seed and
    its Beta distribution are those it was built with, so [export_results]
    keeps writing to the one file named after that seed, and the row written
    carries the seed and the sum of the last run. *)
Theorem runs_keep_seed_and_export_file
    {rng_state : Type} {source : RVGs.RandomSource rng_state}
    (ns : list Z) (model : OneSim.t rng_state) (directory : string) (fs : FS) :
  let model' := after_runs ns model in
  OneSim.seed model' = OneSim.seed model
  /\ OneSim.beta model' = OneSim.beta model
  /\ (OneSim.export_results directory model' fs).2
     = <[seed_path directory (OneSim.seed model)
         := [[Num (PyInt (OneSim.seed model)); Num (OneSim.sum model')]]]> fs.
Proof.
  intros model'. subst model'.
  destruct (after_runs_seed_beta ns model) as [Hseed Hbeta].
  split; [done|]. split; [done|].
  unfold OneSim.export_results, IO.write_csv, seed_path, file_of_seed.
  simpl. by rewrite Hseed.
Qed.

(** X2.  The source of a SimModel [OneSim] is never re-seeded: two runs of
    [a] and [b] steps leave it where one run of [a + b] steps leaves it, so
    the second run uses the variates that follow those of the first. *)
Theorem consecutive_runs_share_one_stream
    {rng_state : Type} {source : RVGs.RandomSource rng_state}
    (a b : Z) (model : OneSim.t rng_state) :
  (0 <= a)%Z -> (0 <= b)%Z ->
  OneSim.rng (OneSim.simulate b (OneSim.simulate a model).2).2
  = OneSim.rng (OneSim.simulate (a + b) model).2.
Proof.
  intros Ha Hb. unfold OneSim.simulate. cbn [snd OneSim.rng OneSim.beta OneSim.seed].
  set (m0 := OneSim.mk (OneSim.rng model) (OneSim.beta model) (PyInt 0)
               (OneSim.seed model)).
  transitivity
    (OneSim.rng (fold_left OneSim.simulate_step (range a ++ range b) m0)).
  - rewrite fold_left_app. apply steps_rng_only; [done|done|].
    by rewrite !steps_beta.
  - apply steps_rng_only; [|done..].
    rewrite length_app, !range_length. lia.
Qed.

Lemma consecutive_runs_share_one_stream_witness :
  (0 <= 2)%Z /\ (0 <= 3)%Z
  /\ OneSim.rng (OneSim.simulate 3
                   (OneSim.simulate 2 (OneSim.init (rng_state:=Z) 4)).2).2
     = OneSim.rng (OneSim.simulate (2 + 3) (OneSim.init (rng_state:=Z) 4)).2.
Proof.
  assert (0 <= 2)%Z as Ha by lia. assert (0 <= 3)%Z as Hb by lia.
  split; [exact Ha|]. split; [exact Hb|].
  exact (consecutive_runs_share_one_stream 2 3 (OneSim.init 4) Ha Hb).
Defined.

(** X3.  After a run of at least one step the sum of a SimModel [OneSim] is
    a float, whatever the object held before; it is the integer 0 only
    when no step ran. *)
Theorem sum_is_float_after_a_step
    {rng_state : Type} {source : RVGs.RandomSource rng_state}
    (n : Z) (model : OneSim.t rng_state) :
  (1 <= n)%Z ->
  exists x, OneSim.sum (OneSim.simulate n model).2 = PyFloat x.
Proof.
  intros Hn. unfold OneSim.simulate. cbn [snd]. apply steps_sum_float.
  intros Hnil. apply (f_equal length) in Hnil.
  rewrite range_length in Hnil. simpl in Hnil. lia.
Qed.

Lemma sum_is_float_after_a_step_witness :
  (1 <= 2)%Z
  /\ exists x,
       OneSim.sum (OneSim.simulate 2 (OneSim.init (rng_state:=Z) 0)).2
       = PyFloat x.
Proof.
  assert (1 <= 2)%Z as Hn by lia. split; [exact Hn|].
  exact (sum_is_float_after_a_step 2 (OneSim.init 0) Hn).
Defined.

(** ** The classes of PyUsingSimPy/SimClasses2.py *)

Section simclasses2_facts.
Context {rng_state : Type} {source : RVGs.RandomSource rng_state}.

Lemma steps2_obs_num (l : list Z) (m : SimClasses2.OneSim.t rng_state) :
  SimClasses2.OneSim.obs (fold_left SimClasses2.OneSim.simulate_step l m)
  = SimClasses2.OneSim.obs m
  /\ SimClasses2.OneSim.num (fold_left SimClasses2.OneSim.simulate_step l m)
     = SimClasses2.OneSim.num m.
Proof.
  revert m. induction l as [|i l IH]; intros m; simpl; [done|].
  destruct (IH (SimClasses2.OneSim.simulate_step m i)) as [-> ->].
  unfold SimClasses2.OneSim.simulate_step.
  destruct (RVGs.random_sample (SimClasses2.OneSim.rng m)) as [u r1].
  by destruct (RVGs.sample (SimClasses2.OneSim.beta m) r1) as [v r2].
Qed.

(** The loop reads the source, the distribution and the sum, nothing else. *)
Lemma steps2_core (l l' : list Z) (m m' : SimClasses2.OneSim.t rng_state) :
  length l = length l' ->
  SimClasses2.OneSim.rng m = SimClasses2.OneSim.rng m' ->
  SimClasses2.OneSim.beta m = SimClasses2.OneSim.beta m' ->
  SimClasses2.OneSim.sum m = SimClasses2.OneSim.sum m' ->
  SimClasses2.OneSim.rng (fold_left SimClasses2.OneSim.simulate_step l m)
  = SimClasses2.OneSim.rng (fold_left SimClasses2.OneSim.simulate_step l' m')
  /\ SimClasses2.OneSim.beta (fold_left SimClasses2.OneSim.simulate_step l m)
     = SimClasses2.OneSim.beta (fold_left SimClasses2.OneSim.simulate_step l' m')
  /\ SimClasses2.OneSim.sum (fold_left SimClasses2.OneSim.simulate_step l m)
     = SimClasses2.OneSim.sum (fold_left SimClasses2.OneSim.simulate_step l' m').
Proof.
  revert l' m m'.
  induction l as [|i l IH]; intros [|i' l'] m m' Hlen Hrng Hbeta Hsum;
    simpl in *; try done.
  apply IH; [lia|..]; unfold SimClasses2.OneSim.simulate_step;
    rewrite Hrng, Hbeta, Hsum;
    destruct (RVGs.random_sample (SimClasses2.OneSim.rng m')) as [u r1];
    by destruct (RVGs.sample (SimClasses2.OneSim.beta m') r1) as [v r2].
Qed.

Lemma multisim_simulate_obs (n N : Z) (self : SimClasses2.MultiSim.t) :
  SimClasses2.MultiSim.obs
    (SimClasses2.MultiSim.simulate (rng_state:=rng_state) n N self).2
  = SimClasses2.MultiSim.obs self
    ++ ((fun seed => outcome (rng_state:=rng_state) seed n) <$> range N).
Proof.
  unfold SimClasses2.MultiSim.simulate.
  pose proof (multisim_obs (rng_state:=rng_state) n N self) as Hobs.
  by destruct (Stat.summarize _).
Qed.

End simclasses2_facts.

(** X4.  The [OneSim] of SimClasses2.py keeps a running total: [simulate]
    never resets the sum, so a run of [a] steps followed by a run of [b]
    steps ends on the sum, and leaves the source in the state, of one run of
    [a + b] steps; each call appends the total reached to [obs]. *)
Theorem simclasses2_runs_add_up
    {rng_state : Type} {source : RVGs.RandomSource rng_state}
    (a b : Z) (self : SimClasses2.OneSim.t rng_state) :
  (0 <= a)%Z -> (0 <= b)%Z ->
  let first := (SimClasses2.OneSim.simulate a self).2 in
  let second := (SimClasses2.OneSim.simulate b first).2 in
  let single := (SimClasses2.OneSim.simulate (a + b) self).2 in
  SimClasses2.OneSim.sum second = SimClasses2.OneSim.sum single
  /\ SimClasses2.OneSim.rng second = SimClasses2.OneSim.rng single
  /\ SimClasses2.OneSim.obs second
     = SimClasses2.OneSim.obs self
       ++ [SimClasses2.OneSim.sum first; SimClasses2.OneSim.sum second].
Proof.
  intros Ha Hb first second single. subst first second single.
  unfold SimClasses2.OneSim.simulate.
  cbn [snd SimClasses2.OneSim.rng SimClasses2.OneSim.sum SimClasses2.OneSim.obs].
  set (F1 := fold_left SimClasses2.OneSim.simulate_step (range a) self).
  set (M1 := SimClasses2.OneSim.mk _ _ _ _ _).
  assert (length (range b) = length (range b)) as Hlen by done.
  destruct (steps2_core (range b) (range b) M1 F1 Hlen eq_refl eq_refl eq_refl)
    as (Hrng & _ & Hsum).
  assert (length (range a ++ range b) = length (range (a + b))) as Hlen'.
  { rewrite length_app, !range_length. lia. }
  destruct (steps2_core (range a ++ range b) (range (a + b)) self self
              Hlen' eq_refl eq_refl eq_refl) as (Hrng' & _ & Hsum').
  rewrite fold_left_app in Hrng', Hsum'. fold F1 in Hrng', Hsum'.
  split; [by rewrite Hsum|]. split; [by rewrite Hrng|].
  destruct (steps2_obs_num (range b) M1) as [-> _].
  subst M1. cbn [SimClasses2.OneSim.obs].
  destruct (steps2_obs_num (range a) self) as [Hobs _]. fold F1 in Hobs.
  by rewrite Hobs, <- app_assoc.
Qed.

Lemma simclasses2_runs_add_up_witness :
  let self := SimClasses2.OneSim.init (rng_state:=Z) 3 in
  (0 <= 2)%Z /\ (0 <= 1)%Z
  /\ SimClasses2.OneSim.sum
       (SimClasses2.OneSim.simulate 1 (SimClasses2.OneSim.simulate 2 self).2).2
     = SimClasses2.OneSim.sum (SimClasses2.OneSim.simulate (2 + 1) self).2.
Proof.
  intros self.
  assert (0 <= 2)%Z as Ha by lia. assert (0 <= 1)%Z as Hb by lia.
  split; [exact Ha|]. split; [exact Hb|].
  exact (proj1 (simclasses2_runs_add_up 2 1 self Ha Hb)).
Defined.

(** X6.  A [MultiSim] never clears its observations: [simulate] appends the
    outcomes of seeds [0 .. n_iterations-1], in seed order, to what the
    object already holds, so a second call leaves the outcomes of both
    calls, the second batch again starting at seed 0. *)
Theorem multisim_accumulates_observations
    {rng_state : Type} {source : RVGs.RandomSource rng_state}
    (n1 N1 n2 N2 : Z) (self : SimClasses2.MultiSim.t) :
  let once :=
    (SimClasses2.MultiSim.simulate (rng_state:=rng_state) n1 N1 self).2 in
  let twice :=
    (SimClasses2.MultiSim.simulate (rng_state:=rng_state) n2 N2 once).2 in
  SimClasses2.MultiSim.obs once
  = SimClasses2.MultiSim.obs self
    ++ ((fun seed => outcome (rng_state:=rng_state) seed n1) <$> range N1)
  /\ SimClasses2.MultiSim.obs twice
     = SimClasses2.MultiSim.obs self
       ++ ((fun seed => outcome (rng_state:=rng_state) seed n1) <$> range N1)
       ++ ((fun seed => outcome (rng_state:=rng_state) seed n2) <$> range N2)
  /\ length (SimClasses2.MultiSim.obs twice)
     = length (SimClasses2.MultiSim.obs self) + Z.to_nat N1 + Z.to_nat N2.
Proof.
  intros once twice.
  subst once twice. rewrite !multisim_simulate_obs. split; [done|].
  split; [by rewrite <- app_assoc|].
  rewrite !length_app, !length_fmap, !range_length. lia.
Qed.

(** X7.  [MultiSim.export_results] after [simulate] on a fresh [MultiSim]
    writes [results.csv] under [Results] with one row per seed, in seed
    order, each row holding that seed's outcome; no other file changes. *)
Theorem multisim_export_rows_in_seed_order
    {rng_state : Type} {source : RVGs.RandomSource rng_state}
    (n N : Z) (fs : FS) :
  let self :=
    (SimClasses2.MultiSim.simulate (rng_state:=rng_state) n N
       SimClasses2.MultiSim.init).2 in
  (SimClasses2.MultiSim.export_results self fs).2
  = <[("Results", "results.csv")
      := (fun seed => [Num (outcome (rng_state:=rng_state) seed n)])
           <$> range N]> fs.
Proof.
  intros self.
  pose proof (multisim_simulate_obs (rng_state:=rng_state) n N
                SimClasses2.MultiSim.init) as Hobs.
  fold self in Hobs. cbn [SimClasses2.MultiSim.obs SimClasses2.MultiSim.init app]
    in Hobs.
  unfold SimClasses2.MultiSim.export_results, IO.write_csv. cbn [snd].
  rewrite Hobs, (fold_left_snoc_fmap (fun o => [Num o])). simpl.
  by rewrite <- list_fmap_compose.
Qed.

(** ** The drivers run again, and run side by side *)

Section files_facts.
Context {rng_state : Type} {source : RVGs.RandomSource rng_state}.

(** A path is the file of a seed below [N], or it is none of them. *)
Lemma seed_path_cases (dir : string) (N : Z) (p : string * string) :
  (exists seed, (0 <= seed < N)%Z /\ p = seed_path dir seed)
  \/ (forall seed, (0 <= seed < N)%Z -> p <> seed_path dir seed).
Proof.
  destruct (decide (p ∈ seed_path dir <$> range N)) as [Hin|Hout].
  - left. apply list_elem_of_fmap in Hin as (seed & -> & Hseed%range_elem_of).
    by exists seed.
  - right. intros seed Hseed ->. apply Hout, list_elem_of_fmap_2.
    by apply range_elem_of.
Qed.

Lemma written_twice (dir : string) (N1 N2 n1 n2 : Z) (fs : FS) :
  (N1 <= N2)%Z ->
  write_all (seed_path dir) (result_rows (rng_state:=rng_state) n2) (range N2)
    (write_all (seed_path dir) (result_rows (rng_state:=rng_state) n1)
       (range N1) fs)
  = write_all (seed_path dir) (result_rows (rng_state:=rng_state) n2)
      (range N2) fs.
Proof.
  intros HN. apply map_eq. intros p.
  destruct (seed_path_cases dir N2 p) as [(seed & Hseed & ->)|Hout].
  - unfold seed_path. by rewrite !written_lookup.
  - unfold seed_path in *. rewrite !written_other; [done|..]; try done.
    intros seed Hseed. apply Hout. lia.
Qed.

Lemma written_commute (dir1 dir2 : string) (N1 N2 n1 n2 : Z) (fs : FS) :
  dir1 <> dir2 ->
  write_all (seed_path dir1) (result_rows (rng_state:=rng_state) n1) (range N1)
    (write_all (seed_path dir2) (result_rows (rng_state:=rng_state) n2)
       (range N2) fs)
  = write_all (seed_path dir2) (result_rows (rng_state:=rng_state) n2) (range N2)
      (write_all (seed_path dir1) (result_rows (rng_state:=rng_state) n1)
         (range N1) fs).
Proof.
  intros Hdir. apply map_eq. intros p. unfold seed_path.
  destruct (seed_path_cases dir1 N1 p) as [(s1 & Hs1 & ->)|Hout1];
    unfold seed_path in *.
  - rewrite written_lookup by done.
    rewrite (written_other dir2) by (intros ? _; congruence).
    by rewrite written_lookup.
  - rewrite (written_other dir1) by done.
    destruct (seed_path_cases dir2 N2 p) as [(s2 & Hs2 & ->)|Hout2];
      unfold seed_path in *.
    + by rewrite !written_lookup.
    + by rewrite !written_other.
Qed.

Lemma write_all_dom {A : Type} (path : A -> string * string)
    (rows : A -> list (list cell)) (l : list A) (fs : FS) :
  dom (write_all path rows l fs) = dom fs ∪ list_to_set (path <$> l).
Proof.
  unfold write_all. revert fs. induction l as [|x l IH]; intros fs.
  - cbn [fold_left]. symmetry. apply (right_id_L ∅ (∪)).
  - cbn [fold_left]. rewrite IH, dom_insert_L.
    rewrite fmap_cons, list_to_set_cons.
    by rewrite (comm_L (∪) {[path x]} (dom fs)), <- (assoc_L (∪)).
Qed.

Lemma seed_paths_NoDup (dir : string) (N : Z) :
  NoDup (seed_path dir <$> range N).
Proof.
  apply NoDup_fmap_2_strong; [|apply NoDup_seqZ].
  intros s1 s2 _ _ Heq. apply (f_equal snd) in Heq. by apply file_of_seed_inj.
Qed.

End files_facts.

(** X8.  The sequential driver run again replaces its own files: after a
    run over [N1] seeds, a run over [N2 >= N1] seeds leaves the file system
    it would leave with no earlier run.  In particular the driver run twice
    with the same constants leaves what one run leaves. *)
Theorem sequential_driver_rerun
    {rng_state : Type} {source : RVGs.RandomSource rng_state}
    (N1 N2 n1 n2 : Z) (fs : FS) :
  (N1 <= N2)%Z ->
  RunSimSequential.loop (rng_state:=rng_state) N2 n2
    (RunSimSequential.loop (rng_state:=rng_state) N1 n1 fs)
  = RunSimSequential.loop (rng_state:=rng_state) N2 n2 fs
  /\ RunSimSequential.loop (rng_state:=rng_state) N2 n2
       (RunSimSequential.loop (rng_state:=rng_state) N2 n2 fs)
     = RunSimSequential.loop (rng_state:=rng_state) N2 n2 fs.
Proof.
  intros HN. rewrite !loop_writes.
  split; apply (written_twice "ResultsSequential"); lia.
Qed.

Lemma sequential_driver_rerun_witness :
  (2 <= 3)%Z
  /\ RunSimSequential.loop (rng_state:=Z) 3 4
       (RunSimSequential.loop (rng_state:=Z) 2 5 ∅)
     = RunSimSequential.loop (rng_state:=Z) 3 4 ∅.
Proof.
  assert (2 <= 3)%Z as HN by lia. split; [exact HN|].
  exact (proj1 (sequential_driver_rerun 2 3 5 4 ∅ HN)).
Defined.

(** X9.  The sequential driver over [N] seeds creates the files
    [Seed 0.csv] .. [Seed N-1.csv] under [ResultsSequential] and no other:
    the set of files is the one before plus these, and started on an empty
    file system it leaves exactly [N] files (none when [N <= 0]). *)
Theorem sequential_driver_files_created
    {rng_state : Type} {source : RVGs.RandomSource rng_state}
    (N n : Z) (fs : FS) :
  dom (RunSimSequential.loop (rng_state:=rng_state) N n fs)
  = dom fs ∪ list_to_set (seed_path "ResultsSequential" <$> range N)
  /\ size (RunSimSequential.loop (rng_state:=rng_state) N n ∅) = Z.to_nat N.
Proof.
  rewrite !loop_writes. split.
  - apply write_all_dom.
  - rewrite <- size_dom.
    rewrite (write_all_dom (seed_path "ResultsSequential")), dom_empty_L.
    rewrite (left_id_L ∅ (∪)), size_list_to_set by apply seed_paths_NoDup.
    by rewrite length_fmap, range_length.
Qed.

(** X10.  A pool run leaves the replication set as it was built, its
    models unsimulated, so the set can be run again: a second run, with
    another step count and under another schedule, replaces the files of the
    first and leaves what it would leave with no earlier run. *)
Theorem parallel_rerun_replaces_files
    {rng_state : Type} {source : RVGs.RandomSource rng_state}
    (N n1 n2 : Z) (sched1 sched2 : list nat) (fs : FS) :
  sched1 ≡ₚ seq 0 (Z.to_nat N) -> sched2 ≡ₚ seq 0 (Z.to_nat N) ->
  let set := ParallelMultiSim.init (rng_state:=rng_state) N in
  let first := ParallelMultiSim.simulate n1 sched1 set fs in
  first.1.2 = set
  /\ Forall (fun model => OneSim.sum model = PyInt 0)
       (ParallelMultiSim.models first.1.2)
  /\ ParallelMultiSim.simulate n2 sched2 first.1.2 first.2
     = ParallelMultiSim.simulate n2 sched2 set fs.
Proof.
  intros Hperm1 Hperm2 set first. subst set first.
  rewrite (parallel_files N n1) by done. cbn [fst snd].
  split; [done|]. split.
  - rewrite init_models. apply Forall_fmap, Forall_true. by intros seed.
  - rewrite !parallel_files by done. f_equal.
    apply (written_twice "ResultsParallel"). lia.
Qed.

Lemma parallel_rerun_replaces_files_witness :
  [1; 0] ≡ₚ seq 0 (Z.to_nat 2) /\ [0; 1] ≡ₚ seq 0 (Z.to_nat 2)
  /\ ParallelMultiSim.simulate (rng_state:=Z) 3 [0; 1]
       (ParallelMultiSim.simulate (rng_state:=Z) 5 [1; 0]
          (ParallelMultiSim.init 2) ∅).1.2
       (ParallelMultiSim.simulate (rng_state:=Z) 5 [1; 0]
          (ParallelMultiSim.init 2) ∅).2
     = ParallelMultiSim.simulate (rng_state:=Z) 3 [0; 1]
         (ParallelMultiSim.init 2) ∅.
Proof.
  assert ([1; 0] ≡ₚ seq 0 (Z.to_nat 2)) as H1.
  { apply (bool_decide_unpack _). vm_compute. exact I. }
  assert ([0; 1] ≡ₚ seq 0 (Z.to_nat 2)) as H2.
  { apply (bool_decide_unpack _). vm_compute. exact I. }
  split; [exact H1|]. split; [exact H2|].
  exact (proj2 (proj2 (parallel_rerun_replaces_files 2 5 3 [1; 0] [0; 1] ∅ H1 H2))).
Defined.

(** X11.  The two drivers do not disturb each other: the parallel run
    writes under [ResultsParallel] only and the sequential one under
    [ResultsSequential] only, so running one after the other leaves the
    same files in either order. *)
Theorem drivers_commute
    {rng_state : Type} {source : RVGs.RandomSource rng_state}
    (Ns ns Np np : Z) (sched : list nat) (fs : FS) :
  sched ≡ₚ seq 0 (Z.to_nat Np) ->
  RunSimSequential.loop (rng_state:=rng_state) Ns ns
    (RunSimParallel.run (rng_state:=rng_state) Np np sched fs).2
  = (RunSimParallel.run (rng_state:=rng_state) Np np sched
       (RunSimSequential.loop (rng_state:=rng_state) Ns ns fs)).2.
Proof.
  intros Hperm. unfold RunSimParallel.run.
  rewrite !parallel_files by done. cbn [snd]. rewrite !loop_writes.
  by apply (written_commute "ResultsSequential" "ResultsParallel").
Qed.

Lemma drivers_commute_witness :
  [1; 0] ≡ₚ seq 0 (Z.to_nat 2)
  /\ RunSimSequential.loop (rng_state:=Z) 3 2
       (RunSimParallel.run (rng_state:=Z) 2 4 [1; 0] ∅).2
     = (RunSimParallel.run (rng_state:=Z) 2 4 [1; 0]
          (RunSimSequential.loop (rng_state:=Z) 3 2 ∅)).2.
Proof.
  assert ([1; 0] ≡ₚ seq 0 (Z.to_nat 2)) as Hperm.
  { apply (bool_decide_unpack _). vm_compute. exact I. }
  split; [exact Hperm|].
  exact (drivers_commute 3 2 2 4 [1; 0] ∅ Hperm).
Defined.

(** X12.  [ParallelMultiSim(N)] holds one fresh model per seed, in seed
    order and each seed once: the seeds of its models are [range(N)], there
    are [max(N, 0)] of them, and the file names their exports use are
    pairwise distinct. *)
Theorem replication_set_has_one_model_per_seed
    {rng_state : Type} {source : RVGs.RandomSource rng_state} (N : Z) :
  let models :=
    ParallelMultiSim.models (ParallelMultiSim.init (rng_state:=rng_state) N) in
  OneSim.seed <$> models = range N
  /\ length models = Z.to_nat N
  /\ Forall (fun model => model = OneSim.init (OneSim.seed model)) models
  /\ NoDup ((fun model => file_of_seed (OneSim.seed model)) <$> models).
Proof.
  intros models. subst models. rewrite init_models.
  split; [|split; [|split]].
  - rewrite <- list_fmap_compose. by apply list_fmap_id.
  - by rewrite length_fmap, range_length.
  - apply Forall_fmap, Forall_true. by intros seed.
  - rewrite <- list_fmap_compose.
    apply NoDup_fmap_2_strong; [|apply NoDup_seqZ].
    intros s1 s2 _ _ Heq. by apply file_of_seed_inj.
Qed.

(** ** RegressionClasses.py *)

Import RegressionClasses.

Section regression_facts.
Variable pow : float -> Z -> float.


End regression_facts.


(** ** Step counts that run no step *)

(** X16.  With a step count of 0 or below the drivers still export every
    seed: the sequential driver and the pool run each write, for every seed
    below [N], the row [[seed, 0]], the sum being the integer 0 no step
    has been added to. *)
Theorem drivers_export_zero_without_steps
    {rng_state : Type} {source : RVGs.RandomSource rng_state}
    (N n seed : Z) (sched : list nat) (fs : FS) :
  (n <= 0)%Z -> (0 <= seed < N)%Z -> sched ≡ₚ seq 0 (Z.to_nat N) ->
  RunSimSequential.loop (rng_state:=rng_state) N n fs
    !! ("ResultsSequential", file_of_seed seed)
  = Some [[Num (PyInt seed); Num (PyInt 0)]]
  /\ (RunSimParallel.run (rng_state:=rng_state) N n sched fs).2
       !! ("ResultsParallel", file_of_seed seed)
     = Some [[Num (PyInt seed); Num (PyInt 0)]].
Proof.
  intros Hn Hseed Hperm.
  assert (result_rows (rng_state:=rng_state) n seed
          = [[Num (PyInt seed); Num (PyInt 0)]]) as Hrows.
  { unfold result_rows, outcome, OneSim.simulate.
    by rewrite range_nonpos by done. }
  unfold RunSimParallel.run.
  rewrite loop_writes, parallel_files by done. cbn [snd].
  by rewrite !written_lookup, Hrows by done.
Qed.

Lemma drivers_export_zero_without_steps_witness :
  (-1 <= 0)%Z /\ (0 <= 1 < 2)%Z /\ [1; 0] ≡ₚ seq 0 (Z.to_nat 2)
  /\ RunSimSequential.loop (rng_state:=Z) 2 (-1) ∅
       !! ("ResultsSequential", file_of_seed 1)
     = Some [[Num (PyInt 1); Num (PyInt 0)]].
Proof.
  assert (-1 <= 0)%Z as Hn by lia. assert (0 <= 1 < 2)%Z as Hseed by lia.
  assert ([1; 0] ≡ₚ seq 0 (Z.to_nat 2)) as Hperm.
  { apply (bool_decide_unpack _). vm_compute. exact I. }
  split; [exact Hn|]. split; [exact Hseed|]. split; [exact Hperm|].
  exact (proj1 (drivers_export_zero_without_steps 2 (-1) 1 [1; 0] ∅
                  Hn Hseed Hperm)).
Defined.
